(** * Upload validation of users/profile_views.py

    A shallow embedding of [SecureFileUploadMixin.validate_file] and of
    [SecureFileUploadMixin._contains_suspicious_content], together with
    the library routines they call ([os.path.splitext],
    [mimetypes.guess_type], [str.lower], [bytes.lower], the [str] of a
    Django [ValidationError]).

    Python values are represented as follows.
    - [str] is a list of characters; a character is a code point below
      256, so the model covers file names written in Latin-1.
    - [bytes] is a list of [byte].
    - [int] is [Z]; indices returned by [find]/[rfind] are [Z] with [-1]
      for "not found", as in Python.
    - the uploaded file is an object with an immutable name and size and
      an open, readable stream: its data and a current position that
      [read] and [seek] change. *)

From Stdlib Require Import List String Ascii ZArith NArith Lia Bool.
From Stdlib Require Import Strings.Byte Numbers.DecimalString.
Import ListNotations.

Local Open Scope string_scope.
Local Open Scope list_scope.
Local Open Scope Z_scope.

(* ------------------------------------------------------------------ *)
(** ** Python strings and byte strings *)

Definition str := list ascii.
Definition bytes := list byte.

(** String literals of the source are written as Rocq strings. *)
Coercion list_ascii_of_string : string >-> list.

Definition b (s : string) : bytes := list_byte_of_string s.

Module Seq.
Section Ops.
Context {A : Type} (eqb : A -> A -> bool).

(** [s == t] *)
Fixpoint eq (s t : list A) : bool :=
  match s, t with
  | [], [] => true
  | x :: s', y :: t' => eqb x y && eq s' t'
  | _, _ => false
  end.

(** [s.startswith(p)] *)
Fixpoint startswith (p s : list A) : bool :=
  match p, s with
  | [], _ => true
  | x :: p', y :: s' => eqb x y && startswith p' s'
  | _ :: _, [] => false
  end.

(** [p in s] for sequences: [p] occurs as a contiguous run of [s]. *)
Fixpoint contains (p s : list A) : bool :=
  startswith p s ||
  match s with
  | [] => false
  | _ :: s' => contains p s'
  end.

(** [s.find(c)] counted from offset [i] of the enclosing sequence. *)
Fixpoint find_from (c : A) (s : list A) (i : Z) : Z :=
  match s with
  | [] => -1
  | x :: s' => if eqb x c then i else find_from c s' (i + 1)
  end.

Definition find (c : A) (s : list A) : Z := find_from c s 0.

(** [s.rfind(c)] counted from offset [i] of the enclosing sequence. *)
Fixpoint rfind_from (c : A) (s : list A) (i : Z) : Z :=
  match s with
  | [] => -1
  | x :: s' =>
      let r := rfind_from c s' (i + 1) in
      if 0 <=? r then r else if eqb x c then i else -1
  end.

Definition rfind (c : A) (s : list A) : Z := rfind_from c s 0.

(** [x in l] for a list of sequences. *)
Definition mem (x : list A) (l : list (list A)) : bool :=
  existsb (eq x) l.
End Ops.

(** Slices [s[:i]], [s[i:]] and [s[i:j]], used with [0 <= i <= j]. *)
Definition upto {A} (s : list A) (i : Z) : list A := firstn (Z.to_nat i) s.
Definition from {A} (s : list A) (i : Z) : list A := skipn (Z.to_nat i) s.
Definition slice {A} (s : list A) (i j : Z) : list A := upto (from s i) (j - i).

(** [len(s)] *)
Definition len {A} (s : list A) : Z := Z.of_nat (List.length s).

(** [sep.join(l)] *)
Fixpoint join {A} (sep : list A) (l : list (list A)) : list A :=
  match l with
  | [] => []
  | [x] => x
  | x :: l' => x ++ sep ++ join sep l'
  end.
End Seq.

Definition str_eqb : str -> str -> bool := Seq.eq Ascii.eqb.
Definition str_in : str -> list str -> bool := Seq.mem Ascii.eqb.
Definition char_in (c : ascii) (s : str) : bool := existsb (Ascii.eqb c) s.

(** [str.lower] on code points below 256: the ASCII capitals and the
    Latin-1 capitals U+00C0..U+00DE except the multiplication sign. *)
Definition lower_char (c : ascii) : ascii :=
  let n := N_of_ascii c in
  if ((65 <=? n) && (n <=? 90) ||
      (192 <=? n) && (n <=? 222) && negb (n =? 215))%N
  then ascii_of_N (n + 32) else c.

Definition str_lower (s : str) : str := map lower_char s.

(** [bytes.lower]: only the ASCII capitals change. *)
Definition lower_byte (c : byte) : byte :=
  match c with
  | x41 => x61 | x42 => x62 | x43 => x63 | x44 => x64 | x45 => x65
  | x46 => x66 | x47 => x67 | x48 => x68 | x49 => x69 | x4a => x6a
  | x4b => x6b | x4c => x6c | x4d => x6d | x4e => x6e | x4f => x6f
  | x50 => x70 | x51 => x71 | x52 => x72 | x53 => x73 | x54 => x74
  | x55 => x75 | x56 => x76 | x57 => x77 | x58 => x78 | x59 => x79
  | x5a => x7a
  | _ => c
  end.

Definition bytes_lower (s : bytes) : bytes := map lower_byte s.

(** [str(n)] for an integer. *)
Definition str_of_int (n : Z) : str :=
  list_ascii_of_string (NilZero.string_of_int (Z.to_int n)).

(** [repr] of a [str] and of a list of [str], as CPython prints them:
    single quotes unless the text has a single and no double quote;
    the quote and the backslash escaped; tab, newline and carriage
    return by letter; every other non-printable character as [\xhh]. *)
Definition squote : ascii := "'"%char.
Definition dquote : ascii := ascii_of_N 34.
Definition backslash : ascii := "\"%char.

Definition isprintable (c : ascii) : bool :=
  let n := N_of_ascii c in
  ((32 <=? n) && (n <? 127) || (161 <=? n) && negb (n =? 173))%N.

Definition hexdigit (n : N) : ascii :=
  nth (N.to_nat n) (list_ascii_of_string "0123456789abcdef") "0"%char.

Definition repr_char (quote c : ascii) : str :=
  let n := N_of_ascii c in
  if (c =? quote)%char || (c =? backslash)%char then [backslash; c]
  else if (n =? 9)%N then [backslash; "t"%char]
  else if (n =? 10)%N then [backslash; "n"%char]
  else if (n =? 13)%N then [backslash; "r"%char]
  else if isprintable c then [c]
  else [backslash; "x"%char; hexdigit (n / 16); hexdigit (n mod 16)].

Definition repr_quote (s : str) : ascii :=
  if char_in squote s && negb (char_in dquote s) then dquote else squote.

Definition repr_str (s : str) : str :=
  let quote := repr_quote s in
  quote :: flat_map (repr_char quote) s ++ [quote].

Definition repr_list (l : list str) : str :=
  "[" ++ Seq.join (", " : str) (map repr_str l) ++ "]".

(* ------------------------------------------------------------------ *)
(** ** Dictionaries with [str] keys, in insertion order *)

Definition dict := list (str * str).

Fixpoint dict_get (d : dict) (k : str) : option str :=
  match d with
  | [] => None
  | (k', v) :: d' => if str_eqb k' k then Some v else dict_get d' k
  end.

(** [k in d] *)
Definition dict_has (d : dict) (k : str) : bool :=
  match dict_get d k with Some _ => true | None => false end.

(** [d[k] = v]: an existing key keeps its place. *)
Fixpoint dict_set (d : dict) (k v : str) : dict :=
  match d with
  | [] => [(k, v)]
  | (k', v') :: d' =>
      if str_eqb k' k then (k', v) :: d' else (k', v') :: dict_set d' k v
  end.

Definition dict_items (d : dict) : list (str * str) := d.
Definition dict_keys (d : dict) : list str := map fst d.
Definition dict_values (d : dict) : list str := map snd d.

(* ------------------------------------------------------------------ *)
(** ** os.path (POSIX) *)

Module posixpath.

(** The loop of [genericpath._splitext] that skips leading dots: it
    runs while [filenameIndex < dotIndex], so [n] counts the indices
    left; [true] stands for the early [return] inside the loop. *)
Fixpoint skip_leading_dots (p : str) (extsep : ascii)
         (filenameIndex : Z) (n : nat) : bool :=
  match n with
  | O => false
  | S n' =>
      if negb (str_eqb (Seq.slice p filenameIndex (filenameIndex + 1))
                       [extsep])
      then true
      else skip_leading_dots p extsep (filenameIndex + 1) n'
  end.

(** [genericpath._splitext(p, sep, None, extsep)] *)
Definition _splitext (p : str) (sep extsep : ascii) : str * str :=
  let sepIndex := Seq.rfind Ascii.eqb sep p in
  let dotIndex := Seq.rfind Ascii.eqb extsep p in
  if (sepIndex <? dotIndex) &&
     skip_leading_dots p extsep (sepIndex + 1)
                       (Z.to_nat (dotIndex - (sepIndex + 1)))
  then (Seq.upto p dotIndex, Seq.from p dotIndex)
  else (p, Seq.upto p 0).

Definition splitext (p : str) : str * str := _splitext p "/"%char "."%char.

End posixpath.

(* ------------------------------------------------------------------ *)
(** ** mimetypes (CPython 3.11) *)

Module mimetypes.

Definition suffix_map : dict :=
  [ (".svgz" : str, ".svg.gz" : str);
    (".tgz" : str, ".tar.gz" : str);
    (".taz" : str, ".tar.gz" : str);
    (".tz" : str, ".tar.gz" : str);
    (".tbz2" : str, ".tar.bz2" : str);
    (".txz" : str, ".tar.xz" : str) ].

Definition encodings_map : dict :=
  [ (".gz" : str, "gzip" : str);
    (".Z" : str, "compress" : str);
    (".bz2" : str, "bzip2" : str);
    (".xz" : str, "xz" : str);
    (".br" : str, "br" : str) ].

(** The longest prefix without slash and colon, and what follows it:
    the greedy match of the scheme group of [_typeprog]. *)
Fixpoint span_scheme (url : str) : str * str :=
  match url with
  | [] => ([], [])
  | c :: rest =>
      if (c =? "/")%char || (c =? ":")%char then ([], url)
      else let (scheme, data) := span_scheme rest in (c :: scheme, data)
  end.

(** [urllib.parse._splittype]: a non-empty run of characters other
    than slash and colon, then a colon, then the rest of the text
    (the pattern is matched at the start, in DOTALL mode). *)
Definition _splittype (url : str) : option str * str :=
  match span_scheme url with
  | ((_ :: _) as scheme, c :: data) =>
      if (c =? ":")%char then (Some (str_lower scheme), data)
      else (None, url)
  | _ => (None, url)
  end.

(** The [while] loop of [guess_type] that rewrites suffixes such as
    [.tgz]; every replacement ends in a suffix that is not itself a key
    of [suffix_map], so the loop body runs at most once (see
    [expand_suffix_fuel]). *)
Fixpoint expand_suffix (fuel : nat) (base ext : str) : str * str :=
  match fuel with
  | O => (base, ext)
  | S fuel' =>
      match dict_get suffix_map (str_lower ext) with
      | Some replacement =>
          let (base', ext') := posixpath.splitext (base ++ replacement) in
          expand_suffix fuel' base' ext'
      | None => (base, ext)
      end
  end.

Section Db.
(** The strict table of the process-wide database: the defaults of
    the module as overridden by the system's [mime.types] files. *)
Variable types_map : str -> option str.

(** [MimeTypes.guess_type(url, strict=True)] *)
Definition guess_type (url : str) : option str * option str :=
  let (scheme, url) := _splittype url in
  if match scheme with Some s => str_eqb s "data" | None => false end
  then
    let comma := Seq.find Ascii.eqb ","%char url in
    if comma <? 0 then (None, None)
    else
      let semi := Seq.find Ascii.eqb ";"%char (Seq.upto url comma) in
      let type := if 0 <=? semi then Seq.upto url semi
                  else Seq.upto url comma in
      let type := if char_in "="%char type || negb (char_in "/"%char type)
                  then ("text/plain" : str) else type in
      (Some type, None)
  else
    let (base, ext) := posixpath.splitext url in
    let (base, ext) := expand_suffix 2 base ext in
    let '(encoding, (base, ext)) :=
      match dict_get encodings_map ext with
      | Some enc => (Some enc, posixpath.splitext base)
      | None => (None, (base, ext))
      end in
    let ext := str_lower ext in
    match types_map ext with
    | Some t => (Some t, encoding)
    | None => (None, encoding)
    end.
End Db.

(** The entries of [_types_map_default] for the suffixes used in the
    examples of this development. *)
Definition types_map_excerpt : dict :=
  [ (".doc" : str, "application/msword" : str);
    (".exe" : str, "application/octet-stream" : str);
    (".pdf" : str, "application/pdf" : str);
    (".tar" : str, "application/x-tar" : str);
    (".gif" : str, "image/gif" : str);
    (".jpg" : str, "image/jpeg" : str);
    (".png" : str, "image/png" : str);
    (".html" : str, "text/html" : str);
    (".txt" : str, "text/plain" : str) ].

End mimetypes.

(* ------------------------------------------------------------------ *)
(** ** The uploaded file and the effects of [validate_file] *)

(** [uploaded_file]: [name] and [size] are attributes the validator
    only reads; [data] and [position] are the state of its stream. *)
Record UploadedFile := {
  name : str;
  size : Z;
  data : bytes;
  position : nat
}.

(** Which [raise] statement of [validate_file] built the error. *)
Inductive Reason :=
| FileTooLarge
| FilenameTooLong
| ExtensionNotAllowed
| MimeNotAllowed
| SuspiciousContent.

(** A [ValidationError] carries one message; [reason] names the
    statement that raised it and is kept by the [except] clause. *)
Record ValidationError := {
  reason : Reason;
  message : str
}.

(** [str(e)] for a [ValidationError] with a single message. *)
Definition ValidationError_str (e : ValidationError) : str :=
  repr_list [message e].

(** A computation over the file object that returns or raises. *)
Definition M (A : Type) : Type :=
  UploadedFile -> (A + ValidationError) * UploadedFile.

Definition ret {A} (x : A) : M A := fun f => (inl x, f).

Definition raise {A} (e : ValidationError) : M A := fun f => (inr e, f).

Definition bind {A B} (m : M A) (k : A -> M B) : M B :=
  fun f =>
    match m f with
    | (inl x, f') => k x f'
    | (inr e, f') => (inr e, f')
    end.

(** [try: m  except Exception as e: handler e] *)
Definition try_except {A} (m : M A) (handler : ValidationError -> M A) : M A :=
  fun f =>
    match m f with
    | (inl x, f') => (inl x, f')
    | (inr e, f') => handler e f'
    end.

(** [if c: m] *)
Definition when (c : bool) (m : M unit) : M unit :=
  if c then m else ret tt.

Notation "x <- m ;; k" := (bind m (fun x => k))
  (at level 61, m at next level, right associativity).
Notation "m ;; k" := (bind m (fun _ => k))
  (at level 61, right associativity).

(** [uploaded_file.read(n)] on a stream that works: at most [n] bytes
    from the current position, which moves past them.  ([read_io]
    below is the call on a stream that may raise.) *)
Definition read (n : nat) : M bytes :=
  fun f =>
    let chunk := firstn n (skipn (position f) (data f)) in
    (inl chunk,
     {| name := name f; size := size f; data := data f;
        position := (position f + List.length chunk)%nat |}).

(** [uploaded_file.seek(offset)] on a stream that works. *)
Definition seek (offset : nat) : M unit :=
  fun f =>
    (inl tt,
     {| name := name f; size := size f; data := data f;
        position := offset |}).

(* ------------------------------------------------------------------ *)
(** ** SecureFileUploadMixin *)

Definition ALLOWED_FILE_TYPES : dict :=
  [ ("application/pdf" : str, ".pdf" : str);
    ("application/msword" : str, ".doc" : str);
    ("application/vnd.openxmlformats-officedocument.wordprocessingml.document" : str,
     ".docx" : str);
    ("text/plain" : str, ".txt" : str);
    ("image/jpeg" : str, ".jpg" : str);
    ("image/png" : str, ".png" : str) ].

Definition MAX_FILE_SIZE : Z := 10 * 1024 * 1024.
Definition MAX_FILENAME_LENGTH : Z := 255.

(** [_contains_suspicious_content] *)
Definition suspicious_patterns : list bytes :=
  [ b "<script";
    b "javascript:";
    b "vbscript:";
    b "data:text/html";
    b "data:application/x-javascript" ].

Definition _contains_suspicious_content (file_content : bytes) : bool :=
  let file_content_lower := bytes_lower file_content in
  existsb (fun pattern => Seq.contains Byte.eqb pattern file_content_lower)
          suspicious_patterns.

(** [{v: k for k, v in d.items()}] *)
Definition invert (d : dict) : dict :=
  fold_left (fun acc kv => dict_set acc (snd kv) (fst kv)) (dict_items d) [].

(** [not x] for an optional string: [None] and the empty string. *)
Definition falsy (x : option str) : bool :=
  match x with
  | None => true
  | Some [] => true
  | Some (_ :: _) => false
  end.

(** [f"{x}"] for an optional string. *)
Definition format_opt (x : option str) : str :=
  match x with
  | None => "None"
  | Some s => s
  end.

(** [x in ALLOWED_FILE_TYPES] for an optional string. *)
Definition opt_in_keys (x : option str) (d : dict) : bool :=
  match x with
  | None => false
  | Some s => dict_has d s
  end.

Definition ValidationError_ (r : Reason) (msg : str) : ValidationError :=
  {| reason := r; message := msg |}.

Section Validator.
Variable types_map : str -> option str.

(** The body of the [try] block of [validate_file]. *)
Definition validate_file_body (uploaded_file : UploadedFile) : M bool :=
  (* Check file size *)
  when (MAX_FILE_SIZE <? size uploaded_file)
    (raise (ValidationError_ FileTooLarge
       ("File size exceeds maximum limit of "
        ++ str_of_int (MAX_FILE_SIZE / (1024 * 1024)) ++ "MB"))) ;;
  (* Check filename length *)
  when (MAX_FILENAME_LENGTH <? Seq.len (name uploaded_file))
    (raise (ValidationError_ FilenameTooLong
       ("Filename too long. Maximum length is "
        ++ str_of_int MAX_FILENAME_LENGTH ++ " characters"))) ;;
  (* Check file extension *)
  let file_extension :=
    str_lower (snd (posixpath.splitext (name uploaded_file))) in
  when (negb (str_in file_extension (dict_values ALLOWED_FILE_TYPES)))
    (raise (ValidationError_ ExtensionNotAllowed
       ("File type not allowed. Allowed types: "
        ++ Seq.join (", " : str) (dict_values ALLOWED_FILE_TYPES)))) ;;
  (* Read first 2048 bytes for content validation *)
  file_content <- read 2048 ;;
  seek 0 ;;
  (* Detect MIME type *)
  let detected_mime :=
    fst (mimetypes.guess_type types_map (name uploaded_file)) in
  let detected_mime :=
    if falsy detected_mime then
      let file_extension :=
        str_lower (snd (posixpath.splitext (name uploaded_file))) in
      let extension_to_mime := invert ALLOWED_FILE_TYPES in
      dict_get extension_to_mime file_extension
    else detected_mime in
  (* Validate MIME type *)
  when (negb (opt_in_keys detected_mime ALLOWED_FILE_TYPES))
    (raise (ValidationError_ MimeNotAllowed
       ("File type not allowed. Detected: " ++ format_opt detected_mime))) ;;
  (* Additional security checks *)
  when (_contains_suspicious_content file_content)
    (raise (ValidationError_ SuspiciousContent
       "File contains suspicious content")) ;;
  ret true.

(** [validate_file]: every error raised in the body is caught and
    raised again with the prefixed message. *)
Definition validate_file (uploaded_file : UploadedFile)
  : (bool + ValidationError) * UploadedFile :=
  try_except (validate_file_body uploaded_file)
    (fun e =>
       raise (ValidationError_ (reason e)
                ("File validation failed: " ++ ValidationError_str e)))
    uploaded_file.
End Validator.

(* ------------------------------------------------------------------ *)
(** ** Vocabulary for the properties *)

(** The bytes [read(2048)] hands to the content check: at most 2048
    bytes from the position at which [validate_file] finds the stream. *)
Definition sample (f : UploadedFile) : bytes :=
  firstn 2048 (skipn (position f) (data f)).

(** The file object after [seek(0)]. *)
Definition rewound (f : UploadedFile) : UploadedFile :=
  {| name := name f; size := size f; data := data f; position := 0%nat |}.

(** [os.path.splitext(name)[1].lower()] *)
Definition file_extension (nm : str) : str :=
  str_lower (snd (posixpath.splitext nm)).

(** The MIME type [validate_file] ends up with: the guess of
    [mimetypes], or the reverse lookup in the allow-list. *)
Definition detected_mime (types_map : str -> option str) (nm : str)
  : option str :=
  let guess := fst (mimetypes.guess_type types_map nm) in
  if falsy guess
  then dict_get (invert ALLOWED_FILE_TYPES) (file_extension nm)
  else guess.

(** The five conditions under which [validate_file] raises. *)
Definition too_large (f : UploadedFile) : bool :=
  MAX_FILE_SIZE <? size f.

Definition name_too_long (f : UploadedFile) : bool :=
  MAX_FILENAME_LENGTH <? Seq.len (name f).

Definition extension_refused (f : UploadedFile) : bool :=
  negb (str_in (file_extension (name f)) (dict_values ALLOWED_FILE_TYPES)).

Definition mime_refused (types_map : str -> option str) (f : UploadedFile)
  : bool :=
  negb (opt_in_keys (detected_mime types_map (name f)) ALLOWED_FILE_TYPES).

Definition content_refused (f : UploadedFile) : bool :=
  _contains_suspicious_content (sample f).

(** The message of each [raise] in the body, and the message that
    leaves [validate_file] once the [except] clause has wrapped it. *)
Definition inner_message (types_map : str -> option str) (f : UploadedFile)
           (r : Reason) : str :=
  match r with
  | FileTooLarge => "File size exceeds maximum limit of 10MB"
  | FilenameTooLong => "Filename too long. Maximum length is 255 characters"
  | ExtensionNotAllowed =>
      "File type not allowed. Allowed types: .pdf, .doc, .docx, .txt, .jpg, .png"
  | MimeNotAllowed =>
      "File type not allowed. Detected: "
      ++ format_opt (detected_mime types_map (name f))
  | SuspiciousContent => "File contains suspicious content"
  end.

Definition rejection (types_map : str -> option str) (f : UploadedFile)
           (r : Reason) : ValidationError :=
  ValidationError_ r
    ("File validation failed: " ++ repr_list [inner_message types_map f r]).

(** What a call reports: [None] for [return True], otherwise the
    reason of the error raised. *)
Definition outcome (types_map : str -> option str) (f : UploadedFile)
  : option Reason :=
  match fst (validate_file types_map f) with
  | inl _ => None
  | inr e => Some (reason e)
  end.

(** The checks in the order of the specification, each with the reason
    it reports; [first_failure] is "applied in order, short-circuiting
    on first failure". *)
Definition checks (types_map : str -> option str)
  : list (Reason * (UploadedFile -> bool)) :=
  [ (FileTooLarge, too_large);
    (FilenameTooLong, name_too_long);
    (ExtensionNotAllowed, extension_refused);
    (MimeNotAllowed, mime_refused types_map);
    (SuspiciousContent, content_refused) ].

Fixpoint first_failure (cs : list (Reason * (UploadedFile -> bool)))
         (f : UploadedFile) : option Reason :=
  match cs with
  | [] => None
  | (r, fails) :: cs' => if fails f then Some r else first_failure cs' f
  end.

(** [m] occurs in [s] in some letter case: a run of [s] that lowers to
    [m]. *)
Definition occurs_any_case (m s : bytes) : Prop :=
  exists l v r, s = l ++ v ++ r /\ bytes_lower v = m.

Definition has_marker (s : bytes) : Prop :=
  exists m, In m suspicious_patterns /\ occurs_any_case m s.


(** The text of a byte string. *)
Definition text (s : bytes) : str := map ascii_of_byte s.

(** The extension named by the specification: the text from the last
    dot of the file name (empty when there is no dot). *)
Definition suffix_from_last_dot (nm : str) : str :=
  let i := Seq.rfind Ascii.eqb "."%char nm in
  if 0 <=? i then Seq.from nm i else [].

Definition allowed_extensions : list str :=
  [".pdf" : str; ".doc" : str; ".docx" : str; ".txt" : str; ".jpg" : str;
   ".png" : str].

(** [repr] of a text without the surrounding quotes. *)
Definition repr_body (s : str) : str :=
  flat_map (repr_char (repr_quote s)) s.

(** Characters that [repr] prints as they are whatever the quote. *)
Definition plain_char (c : ascii) : bool :=
  isprintable c && negb (c =? squote)%char && negb (c =? dquote)%char
  && negb (c =? backslash)%char.


(** The registry used in the examples. *)
Definition tm0 : str -> option str := dict_get mimetypes.types_map_excerpt.

Definition upload (nm : string) (sz : Z) (content : bytes) (pos : nat)
  : UploadedFile :=
  {| name := nm; size := sz; data := content; position := pos |}.

(* ------------------------------------------------------------------ *)
(** ** Statements of the specification examined below *)


(** The stream is left at the position where the call found it. *)
Definition position_restored (types_map : str -> option str) : Prop :=
  forall f, position (snd (validate_file types_map f)) = position f.

(* ------------------------------------------------------------------ *)
(** ** DocumentUploadView.post *)

(** What the calls on [DocumentSerializer] and on the document it
    saves come to: [is_valid()] false with [serializer.errors];
    [is_valid()], [save(user=...)] and [document.save()] done, with
    [str(document.id)]; or an exception out of one of them, a Django
    [ValidationError] or not, with its [str(e)]. *)
Inductive SerializerRun :=
| Invalid (errors : str)
| Stored (document_id : str)
| Raised (django_validation_error : bool) (text : str).

(** The bodies [post] answers with: [{'error': ...}],
    [serializer.errors], and the success dictionary. *)
Inductive Body :=
| ErrorBody (error : str)
| SerializerErrors (errors : str)
| SuccessBody (document_id message : str).

Record Response := {
  body : Body;
  status : Z
}.

Definition HTTP_200_OK : Z := 200.
Definition HTTP_400_BAD_REQUEST : Z := 400.
Definition HTTP_500_INTERNAL_SERVER_ERROR : Z := 500.

Section View.
Variable types_map : str -> option str.

(** The serializer works on [request.data], which holds the file
    object that was validated, in the state validation left it. *)
Variable DocumentSerializer : UploadedFile -> SerializerRun.

(** [post]: the argument is [request.FILES.get('file')]; the result is
    the response and the file objects handed to the serializer. *)
Definition post (file : option UploadedFile)
  : Response * list UploadedFile :=
  match file with
  | None =>
      ({| body := ErrorBody "No file provided";
          status := HTTP_400_BAD_REQUEST |}, [])
  | Some uploaded_file =>
      match validate_file types_map uploaded_file with
      | (inr e, _) =>
          (* except ValidationError as e *)
          ({| body := ErrorBody (ValidationError_str e);
              status := HTTP_400_BAD_REQUEST |}, [])
      | (inl _, uploaded_file) =>
          match DocumentSerializer uploaded_file with
          | Stored document_id =>
              ({| body := SuccessBody document_id
                    "Document uploaded successfully. Please send parsed data to complete profile.";
                  status := HTTP_200_OK |}, [uploaded_file])
          | Invalid errors =>
              ({| body := SerializerErrors errors;
                  status := HTTP_400_BAD_REQUEST |}, [uploaded_file])
          | Raised true text =>
              (* except ValidationError as e *)
              ({| body := ErrorBody text;
                  status := HTTP_400_BAD_REQUEST |}, [uploaded_file])
          | Raised false text =>
              (* except Exception as e *)
              ({| body := ErrorBody ("Document upload failed: " ++ text);
                  status := HTTP_500_INTERNAL_SERVER_ERROR |},
               [uploaded_file])
          end
      end
  end.
End View.

(* ------------------------------------------------------------------ *)
(** ** google_signups_list *)

(** Datetimes are counted in microseconds; [timedelta.days] of a
    difference is its floor division by one day. *)
Definition microseconds_per_day : Z := 86400 * 1000000.

Definition timedelta_days (microseconds : Z) : Z :=
  microseconds / microseconds_per_day.

(** [(timezone.now() - user.date_joined).days < 1] *)
Definition is_new_user (now date_joined : Z) : bool :=
  timedelta_days (now - date_joined) <? 1.

(** [str.isspace] on code points below 256. *)
Definition isspace (c : ascii) : bool :=
  let n := N_of_ascii c in
  ((9 <=? n) && (n <=? 13) || (28 <=? n) && (n <=? 32)
   || (n =? 133) || (n =? 160))%N.

Fixpoint lstrip (s : str) : str :=
  match s with
  | [] => []
  | c :: s' => if isspace c then lstrip s' else s
  end.

Definition rstrip (s : str) : str := rev (lstrip (rev s)).

(** [s.strip()] *)
Definition strip (s : str) : str := rstrip (lstrip s).

(** [user.profile.name or f"{user.first_name} {user.last_name}".strip()] *)
Definition google_name (profile_name first_name last_name : str) : str :=
  match profile_name with
  | [] => strip (first_name ++ " " ++ last_name)
  | _ :: _ => profile_name
  end.

(* ------------------------------------------------------------------ *)
(** ** update_user_goals *)

(** [enumerate(l, start)] *)
Fixpoint enumerate {A} (l : list A) (start : Z) : list (Z * A) :=
  match l with
  | [] => []
  | x :: l' => (start, x) :: enumerate l' (start + 1)
  end.

Section Goals.
Variables User Goal : Type.

Record UserGoal := {
  user : User;
  goal : Goal;
  priority : Z
}.

(** The loop that fills [new_goals] before [bulk_create]. *)
Definition new_goals (request_user : User) (goals_data : list Goal)
  : list UserGoal :=
  fold_left
    (fun new_goals ig =>
       new_goals ++ [{| user := request_user; goal := snd ig;
                        priority := fst ig |}])
    (enumerate goals_data 1) [].
End Goals.

Arguments user {User Goal}.
Arguments goal {User Goal}.
Arguments priority {User Goal}.
Arguments new_goals {User Goal}.

(* ------------------------------------------------------------------ *)
(** ** Field updates from request data *)

Section Attributes.
Variable V : Type.

(** The attributes of an object, and the keys of [request.data], with
    their values. *)
Definition attrs := list (str * V).

Fixpoint getattr (o : attrs) (k : str) : option V :=
  match o with
  | [] => None
  | (k', v) :: o' => if str_eqb k' k then Some v else getattr o' k
  end.

Fixpoint setattr (o : attrs) (k : str) (v : V) : attrs :=
  match o with
  | [] => [(k, v)]
  | (k', v') :: o' =>
      if str_eqb k' k then (k', v) :: o' else (k', v') :: setattr o' k v
  end.

(** [for field in update_fields: if field in data:
       setattr(obj, field, data[field])] *)
Definition apply_update_fields (update_fields : list str)
           (data obj : attrs) : attrs :=
  fold_left
    (fun obj field =>
       match getattr data field with
       | Some v => setattr obj field v
       | None => obj
       end)
    update_fields obj.
End Attributes.

Arguments getattr {V}.
Arguments setattr {V}.
Arguments apply_update_fields {V}.

(** The field lists of [update_parsed_profile] and of
    [manage_personal_profile]. *)
Definition parsed_profile_update_fields : list str :=
  [ "first_name" : str; "last_name" : str; "email" : str; "phone" : str;
    "address" : str; "linkedin" : str; "portfolio" : str; "summary" : str;
    "education" : str; "experience" : str; "skills" : str;
    "certifications" : str; "languages" : str; "projects" : str ].

Definition personal_profile_update_fields : list str :=
  [ "name" : str; "email" : str; "phone_number" : str; "country" : str;
    "goal" : str ].

(* ------------------------------------------------------------------ *)
(** ** File objects whose stream can fail *)

(** A file object as [validate_file] may meet it: the uploaded file,
    and what [read] and [seek] come to when they raise instead of
    working (a closed stream, an I/O error): the text [str(e)] of the
    exception they raise. *)
Record FileObject := {
  upload_of : UploadedFile;
  read_error : option str;
  seek_error : option str
}.

Definition set_upload (o : FileObject) (f : UploadedFile) : FileObject :=
  {| upload_of := f; read_error := read_error o;
     seek_error := seek_error o |}.

(** A file object whose stream works. *)
Definition working (f : UploadedFile) : FileObject :=
  {| upload_of := f; read_error := None; seek_error := None |}.

(** An exception: a [ValidationError] with its message and, when a
    check of [validate_file] built the error it stems from, the reason
    of that check; or an exception of another class with its
    [str(e)]. *)
Inductive Exception :=
| Validation (origin : option Reason) (message : str)
| Other (text : str).

(** [str(e)] *)
Definition Exception_str (e : Exception) : str :=
  match e with
  | Validation _ message => repr_list [message]
  | Other text => text
  end.

Definition origin_of (e : Exception) : option Reason :=
  match e with
  | Validation origin _ => origin
  | Other _ => None
  end.

(** A computation over such a file object. *)
Definition IO (A : Type) : Type :=
  FileObject -> (A + Exception) * FileObject.

Definition ret_io {A} (x : A) : IO A := fun o => (inl x, o).

Definition raise_io {A} (e : Exception) : IO A := fun o => (inr e, o).

Definition bind_io {A B} (m : IO A) (k : A -> IO B) : IO B :=
  fun o =>
    match m o with
    | (inl x, o') => k x o'
    | (inr e, o') => (inr e, o')
    end.

(** [try: m  except Exception as e: handler e] *)
Definition try_except_io {A} (m : IO A) (handler : Exception -> IO A)
  : IO A :=
  fun o =>
    match m o with
    | (inl x, o') => (inl x, o')
    | (inr e, o') => handler e o'
    end.

Definition when_io (c : bool) (m : IO unit) : IO unit :=
  if c then m else ret_io tt.

Declare Scope io_scope.
Delimit Scope io_scope with io.

Notation "x <- m ;; k" := (bind_io m (fun x => k))
  (at level 61, m at next level, right associativity) : io_scope.
Notation "m ;; k" := (bind_io m (fun _ => k))
  (at level 61, right associativity) : io_scope.

(** [uploaded_file.read(n)]: raises, or reads as [read] does. *)
Definition read_io (n : nat) : IO bytes :=
  fun o =>
    match read_error o with
    | Some text => (inr (Other text), o)
    | None =>
        (inl (firstn n (skipn (position (upload_of o))
                              (data (upload_of o)))),
         set_upload o (snd (read n (upload_of o))))
    end.

(** [uploaded_file.seek(offset)]: raises, or moves as [seek] does. *)
Definition seek_io (offset : nat) : IO unit :=
  fun o =>
    match seek_error o with
    | Some text => (inr (Other text), o)
    | None => (inl tt, set_upload o (snd (seek offset (upload_of o))))
    end.

Definition ValidationError_io (r : Reason) (msg : str) : Exception :=
  Validation (Some r) msg.

Section FullValidator.
Variable types_map : str -> option str.

(** The body of the [try] block, over a stream that can fail. *)
Definition validate_file_io_body (uploaded_file : FileObject) : IO bool :=
  ((* Check file size *)
   when_io (MAX_FILE_SIZE <? size (upload_of uploaded_file))
     (raise_io (ValidationError_io FileTooLarge
        ("File size exceeds maximum limit of "
         ++ str_of_int (MAX_FILE_SIZE / (1024 * 1024)) ++ "MB"))) ;;
   (* Check filename length *)
   when_io (MAX_FILENAME_LENGTH <? Seq.len (name (upload_of uploaded_file)))
     (raise_io (ValidationError_io FilenameTooLong
        ("Filename too long. Maximum length is "
         ++ str_of_int MAX_FILENAME_LENGTH ++ " characters"))) ;;
   (* Check file extension *)
   let file_extension :=
     str_lower
       (snd (posixpath.splitext (name (upload_of uploaded_file)))) in
   when_io (negb (str_in file_extension (dict_values ALLOWED_FILE_TYPES)))
     (raise_io (ValidationError_io ExtensionNotAllowed
        ("File type not allowed. Allowed types: "
         ++ Seq.join (", " : str) (dict_values ALLOWED_FILE_TYPES)))) ;;
   (* Read first 2048 bytes for content validation *)
   file_content <- read_io 2048 ;;
   seek_io 0 ;;
   (* Detect MIME type *)
   let detected_mime :=
     fst (mimetypes.guess_type types_map
            (name (upload_of uploaded_file))) in
   let detected_mime :=
     if falsy detected_mime then
       let file_extension :=
         str_lower
           (snd (posixpath.splitext (name (upload_of uploaded_file)))) in
       let extension_to_mime := invert ALLOWED_FILE_TYPES in
       dict_get extension_to_mime file_extension
     else detected_mime in
   (* Validate MIME type *)
   when_io (negb (opt_in_keys detected_mime ALLOWED_FILE_TYPES))
     (raise_io (ValidationError_io MimeNotAllowed
        ("File type not allowed. Detected: " ++ format_opt detected_mime))) ;;
   (* Additional security checks *)
   when_io (_contains_suspicious_content file_content)
     (raise_io (ValidationError_io SuspiciousContent
        "File contains suspicious content")) ;;
   ret_io true)%io.

(** [validate_file] over a stream that can fail: whatever exception
    the body raises, a [ValidationError] of a check or the error of
    [read] or [seek], is caught and raised again as a
    [ValidationError] whose message is the prefix and [str(e)]. *)
Definition validate_file_io (uploaded_file : FileObject)
  : (bool + Exception) * FileObject :=
  try_except_io (validate_file_io_body uploaded_file)
    (fun e =>
       raise_io (Validation (origin_of e)
                   ("File validation failed: " ++ Exception_str e)))
    uploaded_file.

(** [post], from the evaluation of [request.FILES] on: that
    evaluation parses the request and can raise; the file can have a
    failing stream. *)
Variable DocumentSerializer : FileObject -> SerializerRun.

Definition post_request (FILES : Exception + option FileObject)
  : Response * list FileObject :=
  match FILES with
  | inl (Validation _ _ as e) =>
      (* except ValidationError as e *)
      ({| body := ErrorBody (Exception_str e);
          status := HTTP_400_BAD_REQUEST |}, [])
  | inl (Other text) =>
      (* except Exception as e *)
      ({| body := ErrorBody ("Document upload failed: " ++ text);
          status := HTTP_500_INTERNAL_SERVER_ERROR |}, [])
  | inr None =>
      ({| body := ErrorBody "No file provided";
          status := HTTP_400_BAD_REQUEST |}, [])
  | inr (Some uploaded_file) =>
      match validate_file_io uploaded_file with
      | (inr (Validation _ _ as e), _) =>
          ({| body := ErrorBody (Exception_str e);
              status := HTTP_400_BAD_REQUEST |}, [])
      | (inr (Other text), _) =>
          ({| body := ErrorBody ("Document upload failed: " ++ text);
              status := HTTP_500_INTERNAL_SERVER_ERROR |}, [])
      | (inl _, uploaded_file) =>
          match DocumentSerializer uploaded_file with
          | Stored document_id =>
              ({| body := SuccessBody document_id
                    "Document uploaded successfully. Please send parsed data to complete profile.";
                  status := HTTP_200_OK |}, [uploaded_file])
          | Invalid errors =>
              ({| body := SerializerErrors errors;
                  status := HTTP_400_BAD_REQUEST |}, [uploaded_file])
          | Raised true text =>
              ({| body := ErrorBody text;
                  status := HTTP_400_BAD_REQUEST |}, [uploaded_file])
          | Raised false text =>
              ({| body := ErrorBody ("Document upload failed: " ++ text);
                  status := HTTP_500_INTERNAL_SERVER_ERROR |},
               [uploaded_file])
          end
      end
  end.
End FullValidator.

(* ------------------------------------------------------------------ *)
(** ** Further vocabulary *)

Definition with_data (f : UploadedFile) (d : bytes) : UploadedFile :=
  {| name := name f; size := size f; data := d; position := position f |}.

Definition with_name (f : UploadedFile) (nm : str) : UploadedFile :=
  {| name := nm; size := size f; data := data f; position := position f |}.

(** [f] passes all five checks. *)
Definition acceptable (types_map : str -> option str) (f : UploadedFile)
  : Prop :=
  size f <= 10 * 1024 * 1024 /\
  Seq.len (name f) <= 255 /\
  In (file_extension (name f)) allowed_extensions /\
  (exists t, detected_mime types_map (name f) = Some t /\
             In t (dict_keys ALLOWED_FILE_TYPES)) /\
  ~ has_marker (sample f).

(** A table entry turned round. *)
Definition swap (kv : str * str) : str * str := (snd kv, fst kv).

(** Text without whitespace. *)
Definition spaceless (s : str) : bool := forallb (fun c => negb (isspace c)) s.

(* ------------------------------------------------------------------ *)
(** ** The shape of a call *)

Lemma read_sample (f : UploadedFile) :
  read 2048 f =
  (inl (sample f),
   {| name := name f; size := size f; data := data f;
      position := (position f + List.length (sample f))%nat |}).
Proof. reflexivity. Qed.

(** [validate_file] as a cascade of its five tests: the first three
    leave the file object alone, the later outcomes leave it rewound. *)
Lemma validate_file_cascade (tm : str -> option str) (f : UploadedFile) :
  validate_file tm f =
  if too_large f then (inr (rejection tm f FileTooLarge), f)
  else if name_too_long f then (inr (rejection tm f FilenameTooLong), f)
  else if extension_refused f
       then (inr (rejection tm f ExtensionNotAllowed), f)
  else if mime_refused tm f
       then (inr (rejection tm f MimeNotAllowed), rewound f)
  else if content_refused f
       then (inr (rejection tm f SuspiciousContent), rewound f)
  else (inl true, rewound f).
Proof.
  unfold validate_file, validate_file_body, try_except.
  unfold too_large, name_too_long, extension_refused, mime_refused,
    content_refused, detected_mime, file_extension.
  destruct (MAX_FILE_SIZE <? size f); [reflexivity|].
  destruct (MAX_FILENAME_LENGTH <? Seq.len (name f)); [reflexivity|].
  destruct (negb (str_in _ _)); [reflexivity|].
  unfold bind at 1 2 3; cbn [when ret].
  unfold bind at 1. rewrite read_sample.
  unfold bind at 1; cbn [seek].
  fold (rewound f).
  destruct (negb (opt_in_keys _ _)); [reflexivity|].
  unfold bind at 1; cbn [when ret].
  destruct (_contains_suspicious_content (sample f)); reflexivity.
Qed.

(* ------------------------------------------------------------------ *)
(** ** Facts about sequences *)

Section SeqFacts.
Context {A : Type} (eqb : A -> A -> bool).
Hypothesis eqb_spec : forall x y, reflect (x = y) (eqb x y).

Lemma seq_eq_true (s t : list A) : Seq.eq eqb s t = true <-> s = t.
Proof.
  revert t; induction s as [|x s IH]; intros [|y t]; simpl;
    try (split; [discriminate | congruence]); [tauto|].
  rewrite andb_true_iff, IH.
  destruct (eqb_spec x y); split.
  - intros [_ ->]; congruence.
  - intros [= ->]; auto.
  - intros [H _]; discriminate.
  - intros [= ? ?]; contradiction.
Qed.

Lemma seq_eq_refl (s : list A) : Seq.eq eqb s s = true.
Proof. now apply seq_eq_true. Qed.

Lemma mem_true (x : list A) (l : list (list A)) :
  Seq.mem eqb x l = true <-> In x l.
Proof.
  unfold Seq.mem. rewrite existsb_exists. split.
  - intros (y & Hy & E). apply seq_eq_true in E. now subst.
  - intros H. exists x. split; [assumption | apply seq_eq_refl].
Qed.

Lemma startswith_true (p s : list A) :
  Seq.startswith eqb p s = true <-> exists r, s = p ++ r.
Proof.
  revert s; induction p as [|x p IH]; intros s; simpl.
  - split; [intros _; now exists s | reflexivity].
  - destruct s as [|y s].
    + split; [discriminate | intros (r & ?); discriminate].
    + rewrite andb_true_iff, IH. destruct (eqb_spec x y) as [->|N]; split.
      * intros (_ & r & ->). now exists r.
      * intros (r & [= ->]). split; [reflexivity | now exists r].
      * intros [? _]; discriminate.
      * intros (r & [= ? ?]). congruence.
Qed.

Lemma contains_true (p s : list A) :
  Seq.contains eqb p s = true <-> exists l r, s = l ++ p ++ r.
Proof.
  induction s as [|y s IH].
  - simpl. rewrite orb_false_r, startswith_true. split.
    + intros (r & E). now exists [], r.
    + intros (l & r & E). symmetry in E.
      apply app_eq_nil in E as (-> & E).
      apply app_eq_nil in E as (-> & ->). now exists [].
  - cbn [Seq.contains]. rewrite orb_true_iff, startswith_true, IH. split.
    + intros [(r & E) | (l & r & E)].
      * now exists [], r.
      * exists (y :: l), r. now rewrite E.
    + intros ([|z l] & r & E).
      * left. now exists r.
      * right. injection E as _ E. now exists l, r.
Qed.

Lemma contains_false_sub (p l s r : list A) :
  Seq.contains eqb p (l ++ s ++ r) = false ->
  Seq.contains eqb p s = false.
Proof.
  intros H. destruct (Seq.contains eqb p s) eqn:E; [|reflexivity].
  apply contains_true in E as (l' & r' & ->).
  rewrite <- H. symmetry. apply contains_true.
  exists (l ++ l'), (r' ++ r). now rewrite <- !app_assoc.
Qed.
End SeqFacts.

Lemma byte_eqb_spec (x y : byte) : reflect (x = y) (Byte.eqb x y).
Proof.
  destruct (Byte.eqb x y) eqn:E; constructor.
  - now apply Byte.byte_dec_bl.
  - intros ->. now rewrite (Byte.byte_dec_lb eq_refl) in E.
Qed.

Lemma str_eqb_true (s t : str) : str_eqb s t = true <-> s = t.
Proof. apply seq_eq_true, Ascii.eqb_spec. Qed.

Lemma str_in_true (x : str) (l : list str) : str_in x l = true <-> In x l.
Proof. apply mem_true, Ascii.eqb_spec. Qed.


Lemma char_in_app (c : ascii) (s t : str) :
  char_in c (s ++ t) = char_in c s || char_in c t.
Proof. apply existsb_app. Qed.

(* ------------------------------------------------------------------ *)
(** ** Order of the checks, size and name length *)

Lemma outcome_cascade (tm : str -> option str) (f : UploadedFile) :
  outcome tm f =
  if too_large f then Some FileTooLarge
  else if name_too_long f then Some FilenameTooLong
  else if extension_refused f then Some ExtensionNotAllowed
  else if mime_refused tm f then Some MimeNotAllowed
  else if content_refused f then Some SuspiciousContent
  else None.
Proof.
  unfold outcome. rewrite validate_file_cascade.
  destruct (too_large f), (name_too_long f), (extension_refused f),
    (mime_refused tm f), (content_refused f); reflexivity.
Qed.

(** C1: [validate_file] applies the checks in the order size, file
    name length, extension, MIME type, content, and stops at the first
    that fails: the reason it reports is that of the earliest failing
    check; a file that is both oversized and of a disallowed extension
    is rejected for its size. *)
Theorem validate_file_check_order (tm : str -> option str) (f : UploadedFile) :
  outcome tm f = first_failure (checks tm) f /\
  (too_large f = true -> extension_refused f = true ->
   outcome tm f = Some FileTooLarge).
Proof.
  split.
  - rewrite outcome_cascade. reflexivity.
  - intros H _. rewrite outcome_cascade, H. reflexivity.
Qed.

Lemma validate_file_check_order_witness :
  outcome tm0 (upload "resume.exe" (10 * 1024 * 1024 + 1) (b "") 0)
  = Some FileTooLarge.
Proof.
  apply (proj2 (validate_file_check_order tm0
            (upload "resume.exe" (10 * 1024 * 1024 + 1) (b "") 0)));
    vm_compute; reflexivity.
Defined.

Lemma rejection_too_large (tm : str -> option str) (f : UploadedFile) :
  rejection tm f FileTooLarge =
  ValidationError_ FileTooLarge
    "File validation failed: ['File size exceeds maximum limit of 10MB']".
Proof. reflexivity. Qed.

Lemma rejection_name_too_long (tm : str -> option str) (f : UploadedFile) :
  rejection tm f FilenameTooLong =
  ValidationError_ FilenameTooLong
    "File validation failed: ['Filename too long. Maximum length is 255 characters']".
Proof. reflexivity. Qed.

(** C2: a file whose size exceeds 10*1024*1024 bytes is rejected with
    the size-limit error whatever its name, MIME type and content; a
    file of exactly 10*1024*1024 bytes passes the size check. *)
Theorem oversized_file_rejected (tm : str -> option str) (f : UploadedFile) :
  (10 * 1024 * 1024 < size f ->
   validate_file tm f =
   (inr (ValidationError_ FileTooLarge
           "File validation failed: ['File size exceeds maximum limit of 10MB']"),
    f)) /\
  (size f = 10 * 1024 * 1024 ->
   too_large f = false /\ outcome tm f <> Some FileTooLarge).
Proof.
  split; intros H.
  - rewrite validate_file_cascade.
    assert (E : too_large f = true)
      by (unfold too_large, MAX_FILE_SIZE; apply Z.ltb_lt; lia).
    rewrite E, rejection_too_large. reflexivity.
  - assert (E : too_large f = false)
      by (unfold too_large, MAX_FILE_SIZE; apply Z.ltb_ge; lia).
    split; [assumption|].
    rewrite outcome_cascade, E.
    destruct (name_too_long f), (extension_refused f), (mime_refused tm f),
      (content_refused f); discriminate.
Qed.

Lemma oversized_file_rejected_witness :
  validate_file tm0 (upload "resume.pdf" 10485761 (b "hello") 0)
  = (inr (ValidationError_ FileTooLarge
            "File validation failed: ['File size exceeds maximum limit of 10MB']"),
     upload "resume.pdf" 10485761 (b "hello") 0)
  /\ too_large (upload "resume.pdf" 10485760 (b "hello") 0) = false
  /\ outcome tm0 (upload "resume.pdf" 10485760 (b "hello") 0)
     <> Some FileTooLarge.
Proof.
  split.
  - apply (proj1 (oversized_file_rejected tm0
              (upload "resume.pdf" 10485761 (b "hello") 0))).
    simpl; lia.
  - apply (proj2 (oversized_file_rejected tm0
              (upload "resume.pdf" 10485760 (b "hello") 0))).
    reflexivity.
Defined.

(** C6: within the size limit, a file whose name is longer than 255
    characters is rejected with the name-length error; a name of
    exactly 255 characters passes the length check. *)
Theorem long_filename_rejected (tm : str -> option str) (f : UploadedFile) :
  (size f <= 10 * 1024 * 1024 -> 255 < Seq.len (name f) ->
   validate_file tm f =
   (inr (ValidationError_ FilenameTooLong
           "File validation failed: ['Filename too long. Maximum length is 255 characters']"),
    f)) /\
  (Seq.len (name f) = 255 ->
   name_too_long f = false /\ outcome tm f <> Some FilenameTooLong).
Proof.
  split.
  - intros Hs Hn. rewrite validate_file_cascade.
    assert (E1 : too_large f = false)
      by (unfold too_large, MAX_FILE_SIZE; apply Z.ltb_ge; lia).
    assert (E2 : name_too_long f = true)
      by (unfold name_too_long, MAX_FILENAME_LENGTH; apply Z.ltb_lt; lia).
    rewrite E1, E2, rejection_name_too_long. reflexivity.
  - intros Hn.
    assert (E : name_too_long f = false)
      by (unfold name_too_long, MAX_FILENAME_LENGTH; apply Z.ltb_ge; lia).
    split; [assumption|].
    rewrite outcome_cascade, E.
    destruct (too_large f), (extension_refused f), (mime_refused tm f),
      (content_refused f); discriminate.
Qed.

Lemma long_filename_rejected_witness :
  validate_file tm0
    {| name := repeat "a"%char 256; size := 5; data := b "hello";
       position := 0 |}
  = (inr (ValidationError_ FilenameTooLong
            "File validation failed: ['Filename too long. Maximum length is 255 characters']"),
     {| name := repeat "a"%char 256; size := 5; data := b "hello";
        position := 0 |})
  /\ name_too_long
       {| name := repeat "a"%char 251 ++ ".pdf"; size := 5;
          data := b "hello"; position := 0 |} = false
  /\ outcome tm0
       {| name := repeat "a"%char 251 ++ ".pdf"; size := 5;
          data := b "hello"; position := 0 |} <> Some FilenameTooLong.
Proof.
  split.
  - apply (proj1 (long_filename_rejected tm0
       {| name := repeat "a"%char 256; size := 5; data := b "hello";
          position := 0 |})).
    + simpl; lia.
    + vm_compute; reflexivity.
  - apply (proj2 (long_filename_rejected tm0
       {| name := repeat "a"%char 251 ++ ".pdf"; size := 5;
          data := b "hello"; position := 0 |})).
    vm_compute; reflexivity.
Defined.

(* ------------------------------------------------------------------ *)
(** ** The stream position and repeated calls *)

Lemma rewound_at_start (f : UploadedFile) :
  position f = 0%nat -> rewound f = f.
Proof. destruct f; unfold rewound; simpl; intros ->; reflexivity. Qed.

Lemma state_after_call (tm : str -> option str) (f : UploadedFile) :
  snd (validate_file tm f) =
  if too_large f || name_too_long f || extension_refused f
  then f else rewound f.
Proof.
  rewrite validate_file_cascade.
  destruct (too_large f), (name_too_long f), (extension_refused f),
    (mime_refused tm f), (content_refused f); reflexivity.
Qed.

(** C8 as the specification has it fails: a call that gets as far as
    reading the sample leaves the stream at offset 0, not where it was. *)
Lemma position_not_restored : ~ position_restored tm0.
Proof.
  intros H.
  specialize (H (upload "a.txt" 11 (b "hello world") 5)).
  vm_compute in H. discriminate.
Qed.

(** C8 (amended): a call rejected by the size, name-length or extension
    check leaves the file object as it was; every other call, accepted
    or rejected, leaves the stream at offset 0 and the name, size and
    data unchanged.  A stream that starts at offset 0 is therefore at
    offset 0 again after every call. *)
Theorem stream_rewound_after_call (tm : str -> option str) (f : UploadedFile) :
  snd (validate_file tm f) =
    (if too_large f || name_too_long f || extension_refused f
     then f else rewound f) /\
  (position f = 0%nat -> snd (validate_file tm f) = f).
Proof.
  split.
  - apply state_after_call.
  - intros H. rewrite state_after_call, (rewound_at_start f H).
    destruct (too_large f || name_too_long f || extension_refused f);
      reflexivity.
Qed.

Lemma stream_rewound_after_call_witness :
  snd (validate_file tm0 (upload "a.txt" 11 (b "hello world") 0))
  = upload "a.txt" 11 (b "hello world") 0.
Proof.
  apply (proj2 (stream_rewound_after_call tm0
                  (upload "a.txt" 11 (b "hello world") 0))).
  reflexivity.
Defined.

(** C9: [validate_file] keeps no state of its own and changes nothing
    of the file object but the stream position.  For every candidate,
    a second call made on the same name, size and data from the same
    starting position returns or raises exactly what the first did
    and leaves the same state; for a stream at offset 0, where every
    call leaves it, two calls in direct succession agree. *)
Theorem second_call_agrees_at_start (tm : str -> option str) (f : UploadedFile) :
  validate_file tm (snd (seek (position f) (snd (validate_file tm f))))
  = validate_file tm f /\
  (position f = 0%nat ->
   validate_file tm (snd (validate_file tm f)) = validate_file tm f).
Proof.
  split.
  - rewrite state_after_call.
    assert (E : forall g, name g = name f -> size g = size f ->
                          data g = data f ->
                          snd (seek (position f) g) = f).
    { intros g Hn Hs Hd. destruct f; simpl in *.
      now rewrite Hn, Hs, Hd. }
    rewrite E; [reflexivity | | | ];
      destruct (too_large f || name_too_long f || extension_refused f);
      reflexivity.
  - intros H. rewrite state_after_call, (rewound_at_start f H).
    destruct (too_large f || name_too_long f || extension_refused f);
      reflexivity.
Qed.

Lemma second_call_agrees_at_start_witness :
  validate_file tm0
    (snd (validate_file tm0 (upload "a.txt" 7 (b "<script") 0)))
  = validate_file tm0 (upload "a.txt" 7 (b "<script") 0).
Proof.
  apply (proj2 (second_call_agrees_at_start tm0
                  (upload "a.txt" 7 (b "<script") 0))).
  reflexivity.
Defined.

(* ------------------------------------------------------------------ *)
(** ** The content check *)

Lemma occurs_any_case_lower (m s : bytes) :
  Seq.contains Byte.eqb m (bytes_lower s) = true <-> occurs_any_case m s.
Proof.
  rewrite (contains_true Byte.eqb byte_eqb_spec). unfold occurs_any_case.
  split.
  - intros (l & r & E). unfold bytes_lower in E.
    apply map_eq_app in E as (l0 & s' & -> & Hl & E).
    apply map_eq_app in E as (v & r0 & -> & Hv & Hr).
    now exists l0, v, r0.
  - intros (l & v & r & -> & <-).
    exists (bytes_lower l), (bytes_lower r).
    unfold bytes_lower. now rewrite !map_app.
Qed.

Lemma has_marker_iff (s : bytes) :
  _contains_suspicious_content s = true <-> has_marker s.
Proof.
  unfold _contains_suspicious_content, has_marker.
  rewrite existsb_exists. split; intros (m & Hm & H); exists m;
    (split; [assumption | now apply occurs_any_case_lower]).
Qed.

Lemma no_marker_iff (s : bytes) :
  _contains_suspicious_content s = false <-> ~ has_marker s.
Proof.
  rewrite <- has_marker_iff.
  destruct (_contains_suspicious_content s); split; intros; congruence.
Qed.

Lemma has_marker_window (n p : nat) (s : bytes) :
  has_marker (firstn n (skipn p s)) -> has_marker s.
Proof.
  intros (m & Hm & l & v & r & E & Hv). exists m. split; [assumption|].
  exists (firstn p s ++ l), v, (r ++ skipn n (skipn p s)).
  split; [|assumption].
  rewrite <- (firstn_skipn p s) at 1.
  rewrite <- (firstn_skipn n (skipn p s)) at 1.
  rewrite E, <- !app_assoc. reflexivity.
Qed.

Lemma sample_at_start (f : UploadedFile) :
  position f = 0%nat -> sample f = firstn 2048 (data f).
Proof. unfold sample. intros ->. reflexivity. Qed.

Lemma rejection_suspicious (tm : str -> option str) (f : UploadedFile) :
  rejection tm f SuspiciousContent =
  ValidationError_ SuspiciousContent
    "File validation failed: ['File contains suspicious content']".
Proof. reflexivity. Qed.

(** For a file that passes the first four checks, a marker among the
    bytes sampled makes the call raise the suspicious-content error. *)
Lemma sampled_marker_rejected (tm : str -> option str) (f : UploadedFile) :
  too_large f = false -> name_too_long f = false ->
  extension_refused f = false -> mime_refused tm f = false ->
  has_marker (sample f) ->
  validate_file tm f = (inr (rejection tm f SuspiciousContent), rewound f).
Proof.
  intros H1 H2 H3 H4 M. apply has_marker_iff in M.
  rewrite validate_file_cascade, H1, H2, H3, H4.
  unfold content_refused. rewrite M. reflexivity.
Qed.

(** C3: an uploaded file reaches the validator with its stream at
    offset 0, where [read(2048)] returns its first 2048 bytes.  For
    such a file that passes the size, name-length, extension and MIME
    checks, if these bytes contain one of the five markers in any
    letter case, the call raises the suspicious-content error; so
    does a file named [resume.pdf], within the size limit and with an
    allow-listed MIME type, whose first 2048 bytes contain a marker. *)
Theorem marker_in_first_2048_rejected (tm : str -> option str)
        (f : UploadedFile) :
  position f = 0%nat ->
  mime_refused tm f = false ->
  has_marker (firstn 2048 (data f)) ->
  (too_large f = false -> name_too_long f = false ->
   extension_refused f = false ->
   validate_file tm f =
   (inr (ValidationError_ SuspiciousContent
           "File validation failed: ['File contains suspicious content']"),
    f)) /\
  (name f = ("resume.pdf" : str) -> size f <= 10 * 1024 * 1024 ->
   validate_file tm f =
   (inr (ValidationError_ SuspiciousContent
           "File validation failed: ['File contains suspicious content']"),
    f)).
Proof.
  intros P H4 M.
  assert (G : too_large f = false -> name_too_long f = false ->
              extension_refused f = false ->
              validate_file tm f =
              (inr (rejection tm f SuspiciousContent), f)).
  { intros H1 H2 H3. rewrite <- (rewound_at_start f P) at 3.
    apply sampled_marker_rejected; try assumption.
    now rewrite sample_at_start. }
  split; [exact G|].
  intros Hn Hs. apply G.
  - unfold too_large, MAX_FILE_SIZE. apply Z.ltb_ge. lia.
  - unfold name_too_long. rewrite Hn. reflexivity.
  - unfold extension_refused. rewrite Hn. reflexivity.
Qed.

Lemma marker_in_first_2048_rejected_witness :
  validate_file tm0 (upload "notes.txt" 9 (b "x<ScRiPt>") 0)
  = (inr (ValidationError_ SuspiciousContent
            "File validation failed: ['File contains suspicious content']"),
     upload "notes.txt" 9 (b "x<ScRiPt>") 0)
  /\ validate_file tm0 (upload "resume.pdf" 9 (b "x<ScRiPt>") 0)
     = (inr (ValidationError_ SuspiciousContent
               "File validation failed: ['File contains suspicious content']"),
        upload "resume.pdf" 9 (b "x<ScRiPt>") 0).
Proof.
  assert (M : has_marker (firstn 2048 (b "x<ScRiPt>"))).
  { exists (b "<script"). split; [simpl; auto|].
    exists (b "x"), (b "<ScRiPt"), (b ">"). split; reflexivity. }
  split.
  - apply (proj1 (marker_in_first_2048_rejected tm0
              (upload "notes.txt" 9 (b "x<ScRiPt>") 0)
              eq_refl eq_refl M)); reflexivity.
  - apply (proj2 (marker_in_first_2048_rejected tm0
              (upload "resume.pdf" 9 (b "x<ScRiPt>") 0)
              eq_refl eq_refl M)).
    + reflexivity.
    + vm_compute. discriminate.
Defined.

(* ------------------------------------------------------------------ *)
(** ** The two accepted examples *)

Lemma mime_accepted_of_guess (tm : str -> option str) (nm t : str) :
  fst (mimetypes.guess_type tm nm) = Some t ->
  t <> [] ->
  dict_has ALLOWED_FILE_TYPES t = true ->
  opt_in_keys (detected_mime tm nm) ALLOWED_FILE_TYPES = true.
Proof.
  intros G N K. unfold detected_mime. rewrite G.
  destruct t as [|c t]; [congruence|]. exact K.
Qed.

Lemma accepted_when_all_pass (tm : str -> option str) (f : UploadedFile) :
  too_large f = false -> name_too_long f = false ->
  extension_refused f = false -> mime_refused tm f = false ->
  ~ has_marker (sample f) ->
  validate_file tm f = (inl true, rewound f).
Proof.
  intros H1 H2 H3 H4 M. apply no_marker_iff in M.
  rewrite validate_file_cascade, H1, H2, H3, H4.
  unfold content_refused. rewrite M. reflexivity.
Qed.

(** C4: within the size limit and with the stream at offset 0, as an
    uploaded file reaches the validator, a file named [resume.pdf]
    that [mimetypes] detects as [application/pdf] and whose first 2048
    bytes contain no marker is accepted, and so is a file named
    [a.txt] detected as [text/plain] whose content is [hello world]:
    [validate_file] returns [True] and leaves the file object as it
    found it. *)
Theorem clean_examples_accepted (tm : str -> option str) (f : UploadedFile) :
  position f = 0%nat ->
  size f <= 10 * 1024 * 1024 ->
  (name f = ("resume.pdf" : str) ->
   fst (mimetypes.guess_type tm (name f)) = Some ("application/pdf" : str) ->
   ~ has_marker (firstn 2048 (data f)) ->
   validate_file tm f = (inl true, f)) /\
  (name f = ("a.txt" : str) ->
   fst (mimetypes.guess_type tm (name f)) = Some ("text/plain" : str) ->
   data f = b "hello world" ->
   validate_file tm f = (inl true, f)).
Proof.
  intros P Hs.
  assert (H1 : too_large f = false)
    by (unfold too_large, MAX_FILE_SIZE; apply Z.ltb_ge; lia).
  split.
  - intros Hn G M. rewrite <- (rewound_at_start f P) at 2.
    apply accepted_when_all_pass; try assumption.
    + unfold name_too_long. rewrite Hn. reflexivity.
    + unfold extension_refused. rewrite Hn. reflexivity.
    + unfold mime_refused.
      rewrite (mime_accepted_of_guess tm (name f) ("application/pdf" : str));
        [reflexivity | assumption | discriminate | reflexivity].
    + now rewrite sample_at_start.
  - intros Hn G D. rewrite <- (rewound_at_start f P) at 2.
    apply accepted_when_all_pass; try assumption.
    + unfold name_too_long. rewrite Hn. reflexivity.
    + unfold extension_refused. rewrite Hn. reflexivity.
    + unfold mime_refused.
      rewrite (mime_accepted_of_guess tm (name f) ("text/plain" : str));
        [reflexivity | assumption | discriminate | reflexivity].
    + unfold sample. intros M. apply has_marker_window in M.
      rewrite D in M. apply has_marker_iff in M.
      vm_compute in M. discriminate.
Qed.

Lemma clean_examples_accepted_witness :
  validate_file tm0 (upload "resume.pdf" 9 (b "%PDF-1.4 ") 0)
  = (inl true, upload "resume.pdf" 9 (b "%PDF-1.4 ") 0)
  /\ validate_file tm0 (upload "a.txt" 11 (b "hello world") 0)
     = (inl true, upload "a.txt" 11 (b "hello world") 0).
Proof.
  split.
  - apply (proj1 (clean_examples_accepted tm0
              (upload "resume.pdf" 9 (b "%PDF-1.4 ") 0)
              eq_refl ltac:(vm_compute; discriminate))).
    + reflexivity.
    + reflexivity.
    + apply no_marker_iff. reflexivity.
  - apply (proj2 (clean_examples_accepted tm0
              (upload "a.txt" 11 (b "hello world") 0)
              eq_refl ltac:(vm_compute; discriminate))); reflexivity.
Defined.

(* ------------------------------------------------------------------ *)
(** ** The extension check *)

Lemma rfind_from_range {A} (eqb : A -> A -> bool) (c : A) (s : list A) (i : Z) :
  0 <= i ->
  Seq.rfind_from eqb c s i = -1 \/ i <= Seq.rfind_from eqb c s i.
Proof.
  revert i; induction s as [|x s IH]; intros i Hi; simpl; [now left|].
  destruct (IH (i + 1) ltac:(lia)) as [E|E].
  - rewrite E. simpl. destruct (eqb x c); [right; lia | now left].
  - destruct (0 <=? Seq.rfind_from eqb c s (i + 1)) eqn:T;
      [right; lia | apply Z.leb_gt in T; lia].
Qed.

Lemma rfind_range {A} (eqb : A -> A -> bool) (c : A) (s : list A) :
  -1 <= Seq.rfind eqb c s.
Proof.
  unfold Seq.rfind.
  destruct (rfind_from_range eqb c s 0 ltac:(lia)); lia.
Qed.

(** The extension [splitext] returns is empty or the text from the
    last dot of the name. *)
Lemma splitext_ext_cases (p : str) :
  snd (posixpath.splitext p) = [] \/
  snd (posixpath.splitext p) = suffix_from_last_dot p.
Proof.
  unfold posixpath.splitext, posixpath._splitext, suffix_from_last_dot.
  destruct (_ && _) eqn:C; [right | now left].
  apply andb_true_iff in C as [C _]. apply Z.ltb_lt in C.
  pose proof (rfind_range Ascii.eqb "/"%char p) as R.
  simpl snd.
  destruct (0 <=? Seq.rfind Ascii.eqb "."%char p) eqn:T;
    [reflexivity | apply Z.leb_gt in T; lia].
Qed.

Lemma rejection_extension (tm : str -> option str) (f : UploadedFile) :
  rejection tm f ExtensionNotAllowed =
  ValidationError_ ExtensionNotAllowed
    "File validation failed: ['File type not allowed. Allowed types: .pdf, .doc, .docx, .txt, .jpg, .png']".
Proof. reflexivity. Qed.

(** C5: within the size and name-length limits, a file whose lowercase
    suffix (the text from the last dot of its name) is not one of
    [.pdf], [.doc], [.docx], [.txt], [.jpg], [.png] is rejected with
    the extension error; so is a file named [resume.exe]. *)
Theorem disallowed_extension_rejected (tm : str -> option str) (f : UploadedFile) :
  size f <= 10 * 1024 * 1024 ->
  Seq.len (name f) <= 255 ->
  (str_in (str_lower (suffix_from_last_dot (name f))) allowed_extensions
   = false ->
   validate_file tm f =
   (inr (ValidationError_ ExtensionNotAllowed
           "File validation failed: ['File type not allowed. Allowed types: .pdf, .doc, .docx, .txt, .jpg, .png']"),
    f)) /\
  (name f = ("resume.exe" : str) ->
   validate_file tm f =
   (inr (ValidationError_ ExtensionNotAllowed
           "File validation failed: ['File type not allowed. Allowed types: .pdf, .doc, .docx, .txt, .jpg, .png']"),
    f)).
Proof.
  intros Hs Hn.
  assert (H1 : too_large f = false)
    by (unfold too_large, MAX_FILE_SIZE; apply Z.ltb_ge; lia).
  assert (H2 : name_too_long f = false)
    by (unfold name_too_long, MAX_FILENAME_LENGTH; apply Z.ltb_ge; lia).
  assert (G : extension_refused f = true ->
              validate_file tm f =
              (inr (rejection tm f ExtensionNotAllowed), f)).
  { intros H3. now rewrite validate_file_cascade, H1, H2, H3. }
  split.
  - intros E. apply G. unfold extension_refused, file_extension.
    destruct (splitext_ext_cases (name f)) as [-> | ->].
    + reflexivity.
    + change (dict_values ALLOWED_FILE_TYPES) with allowed_extensions.
      now rewrite E.
  - intros E. apply G. unfold extension_refused. now rewrite E.
Qed.

Lemma disallowed_extension_rejected_witness :
  validate_file tm0 (upload "notes.tar.gz" 5 (b "hello") 0)
  = (inr (ValidationError_ ExtensionNotAllowed
            "File validation failed: ['File type not allowed. Allowed types: .pdf, .doc, .docx, .txt, .jpg, .png']"),
     upload "notes.tar.gz" 5 (b "hello") 0)
  /\ validate_file tm0 (upload "resume.exe" 5 (b "hello") 0)
     = (inr (ValidationError_ ExtensionNotAllowed
               "File validation failed: ['File type not allowed. Allowed types: .pdf, .doc, .docx, .txt, .jpg, .png']"),
        upload "resume.exe" 5 (b "hello") 0).
Proof.
  split.
  - apply (proj1 (disallowed_extension_rejected tm0
              (upload "notes.tar.gz" 5 (b "hello") 0)
              ltac:(vm_compute; discriminate)
              ltac:(vm_compute; discriminate))).
    reflexivity.
  - apply (proj2 (disallowed_extension_rejected tm0
              (upload "resume.exe" 5 (b "hello") 0)
              ltac:(vm_compute; discriminate)
              ltac:(vm_compute; discriminate))).
    reflexivity.
Defined.

(* ------------------------------------------------------------------ *)
(** ** The messages of the rejections *)


Lemma repr_quote_cases (s : str) :
  repr_quote s = squote \/ repr_quote s = dquote.
Proof. unfold repr_quote. destruct (_ && _); auto. Qed.

Lemma repr_char_plain (q c : ascii) :
  q = squote \/ q = dquote ->
  plain_char c = true -> repr_char q c = [c].
Proof.
  intros [-> | ->];
    destruct c as [[] [] [] [] [] [] [] []]; intros H;
    try discriminate H; reflexivity.
Qed.

Lemma flat_map_repr_plain (q : ascii) (s : str) :
  q = squote \/ q = dquote ->
  forallb plain_char s = true -> flat_map (repr_char q) s = s.
Proof.
  intros Hq. induction s as [|c s IH]; simpl; [reflexivity|].
  intros H. apply andb_true_iff in H as [Hc Hs].
  now rewrite (repr_char_plain q c Hq Hc), IH.
Qed.


(** [repr] of a text that starts with a prefix free of quotes: the
    quote is chosen by the rest, and the rest is printed in one piece. *)
Lemma repr_list_prefixed (pre s : str) :
  char_in squote pre = false -> char_in dquote pre = false ->
  repr_list [pre ++ s] =
  ("[" ++ repr_quote s :: flat_map (repr_char (repr_quote s)) pre)
  ++ repr_body s ++ (repr_quote s :: "]").
Proof.
  intros H1 H2.
  assert (Q : repr_quote (pre ++ s) = repr_quote s)
    by (unfold repr_quote; now rewrite !char_in_app, H1, H2).
  unfold repr_list, repr_str, repr_body. cbn [map Seq.join].
  rewrite Q, flat_map_app.
  change ("[" : str) with ["["%char]. change ("]" : str) with ["]"%char].
  simpl. rewrite <- !app_assoc. reflexivity.
Qed.





(* ------------------------------------------------------------------ *)
(** ** The last dot of a name *)

Lemma rfind_from_absent (c : ascii) (s : str) (i : Z) :
  char_in c s = false -> Seq.rfind_from Ascii.eqb c s i = -1.
Proof.
  revert i; induction s as [|x s IH]; intros i; simpl; [reflexivity|].
  intros H. apply orb_false_iff in H as [Hx Hs].
  rewrite (IH (i + 1) Hs). simpl.
  now rewrite Ascii.eqb_sym, Hx.
Qed.

Lemma rfind_from_last (c : ascii) (pre e : str) (i : Z) :
  0 <= i -> char_in c e = false ->
  Seq.rfind_from Ascii.eqb c (pre ++ c :: e) i = i + Seq.len pre.
Proof.
  intros Hi He. revert i Hi; induction pre as [|x pre IH]; intros i Hi.
  - simpl. rewrite (rfind_from_absent c e (i + 1) He). simpl.
    rewrite Ascii.eqb_refl. unfold Seq.len. simpl. lia.
  - cbn [app Seq.rfind_from]. rewrite (IH (i + 1)) by lia.
    unfold Seq.len. cbn [List.length].
    destruct (0 <=? i + 1 + Z.of_nat (List.length pre)) eqn:T;
      [lia | apply Z.leb_gt in T; lia].
Qed.

Lemma last_occurrence (c : ascii) (s : str) :
  char_in c s = false \/
  exists pre e, s = pre ++ c :: e /\ char_in c e = false.
Proof.
  induction s as [|x s IH]; [now left|].
  destruct IH as [N | (pre & e & -> & He)].
  - destruct (Ascii.eqb c x) eqn:E.
    + right. apply Ascii.eqb_eq in E. subst x. now exists [], s.
    + left. simpl. now rewrite E.
  - right. now exists (x :: pre), e.
Qed.




(* ------------------------------------------------------------------ *)
(** ** The MIME check *)


Lemma dict_get_some_key (d : dict) (k v : str) :
  dict_get d k = Some v -> In k (dict_keys d).
Proof.
  induction d as [|[k' v'] d IH]; simpl; [discriminate|].
  destruct (str_eqb k' k) eqn:E.
  - apply str_eqb_true in E. now left.
  - intros H. right. now apply IH.
Qed.







(* ------------------------------------------------------------------ *)
(** ** The suffix loop of [guess_type] ends after one round *)

Lemma rfind_from_app_absent (c : ascii) (s t : str) (i : Z) :
  char_in c t = false ->
  Seq.rfind_from Ascii.eqb c (s ++ t) i = Seq.rfind_from Ascii.eqb c s i.
Proof.
  intros H. revert i; induction s as [|x s IH]; intros i.
  - simpl. now apply rfind_from_absent.
  - cbn [app Seq.rfind_from]. now rewrite IH.
Qed.

Lemma rfind_from_upper (c : ascii) (s : str) (i : Z) :
  Seq.rfind_from Ascii.eqb c s i < i + Seq.len s \/
  Seq.rfind_from Ascii.eqb c s i = -1.
Proof.
  unfold Seq.len. revert i; induction s as [|x s IH]; intros i;
    [now right|].
  cbn [Seq.rfind_from List.length].
  destruct (0 <=? Seq.rfind_from Ascii.eqb c s (i + 1)).
  - destruct (IH (i + 1)) as [E | E]; [left | right]; lia.
  - destruct (Ascii.eqb x c); [left; lia | now right].
Qed.

Lemma skip_leading_dots_true (p : str) (c : ascii) (n : nat) (i j : Z) :
  i <= j < i + Z.of_nat n ->
  str_eqb (Seq.slice p j (j + 1)) [c] = false ->
  posixpath.skip_leading_dots p c i n = true.
Proof.
  revert i; induction n as [|n IH]; intros i Hj Hs; [lia|].
  cbn [posixpath.skip_leading_dots].
  destruct (str_eqb (Seq.slice p i (i + 1)) [c]) eqn:E; [|reflexivity].
  cbn [negb]. apply IH; [|assumption].
  assert (i <> j) by (intros ->; congruence). lia.
Qed.

Lemma slice_at (pre : str) (x : ascii) (t : str) :
  Seq.slice (pre ++ x :: t) (Seq.len pre) (Seq.len pre + 1) = [x].
Proof.
  unfold Seq.slice, Seq.from, Seq.upto, Seq.len.
  rewrite Nat2Z.id, skipn_app, skipn_all, Nat.sub_diag.
  replace (Z.of_nat (List.length pre) + 1 - Z.of_nat (List.length pre))
    with 1 by lia.
  reflexivity.
Qed.

(** A path that ends in a stem with a letter and a suffix without dot
    or slash is split right before that suffix. *)
Lemma splitext_known_suffix (base : str) (x : ascii) (stem e : str) :
  x <> "."%char ->
  char_in "/"%char ("."%char :: x :: stem ++ "."%char :: e) = false ->
  char_in "."%char e = false ->
  posixpath.splitext (base ++ "."%char :: x :: stem ++ "."%char :: e)
  = (base ++ "."%char :: x :: stem, "."%char :: e).
Proof.
  intros Hx Hsl He.
  unfold posixpath.splitext, posixpath._splitext, Seq.rfind.
  rewrite (rfind_from_app_absent "/"%char base _ 0 Hsl).
  replace (base ++ "."%char :: x :: stem ++ "."%char :: e)
    with ((base ++ "."%char :: x :: stem) ++ "."%char :: e)
    by (now rewrite <- app_assoc).
  rewrite (rfind_from_last "."%char _ e 0) by (assumption || lia).
  set (sepIndex := Seq.rfind_from Ascii.eqb "/"%char base 0).
  assert (B1 : -1 <= sepIndex)
    by (destruct (rfind_from_range Ascii.eqb "/"%char base 0); subst sepIndex; lia).
  assert (B2 : sepIndex < Seq.len base)
    by (destruct (rfind_from_upper "/"%char base 0); subst sepIndex;
        unfold Seq.len in *; lia).
  assert (L : Seq.len (base ++ "."%char :: x :: stem)
              = Seq.len base + 2 + Seq.len stem)
    by (unfold Seq.len; rewrite length_app; cbn [List.length]; lia).
  assert (Ls : 0 <= Seq.len stem) by (unfold Seq.len; lia).
  rewrite (proj2 (Z.ltb_lt _ _)) by lia.
  rewrite (skip_leading_dots_true _ _ _ _ (Seq.len base + 1)).
  - cbn [andb]. unfold Seq.upto, Seq.from, Seq.len.
    rewrite Z.add_0_l, Nat2Z.id.
    rewrite firstn_app, firstn_all, Nat.sub_diag, skipn_app, skipn_all,
      Nat.sub_diag.
    cbn [firstn skipn]. now rewrite app_nil_r.
  - lia.
  - replace ((base ++ "."%char :: x :: stem) ++ "."%char :: e)
      with ((base ++ ["."%char]) ++ x :: stem ++ "."%char :: e)
      by (now rewrite <- !app_assoc).
    replace (Seq.len base + 1) with (Seq.len (base ++ ["."%char]))
      by (unfold Seq.len; rewrite length_app; cbn [List.length]; lia).
    rewrite slice_at. cbn.
    destruct (Ascii.eqb x ".") eqn:E; [|reflexivity].
    apply Ascii.eqb_eq in E. contradiction.
Qed.

Ltac known_suffix base x stem e :=
  let S := fresh "S" in
  pose proof (splitext_known_suffix base x stem e
                ltac:(intros [=]) eq_refl eq_refl) as S;
  cbn [app list_ascii_of_string] in S; rewrite S.

Lemma dict_get_some_value (d : dict) (k v : str) :
  dict_get d k = Some v -> In v (dict_values d).
Proof.
  induction d as [|[k' v'] d IH]; simpl; [discriminate|].
  destruct (str_eqb k' k).
  - intros [= ->]. now left.
  - intros H. right. now apply IH.
Qed.

(** More fuel than 2 changes nothing, and on exit the condition of the
    loop is false: the model of the loop is the loop. *)
Lemma expand_suffix_fuel (n : nat) (base ext : str) :
  mimetypes.expand_suffix (2 + n) base ext
  = mimetypes.expand_suffix 2 base ext /\
  dict_get mimetypes.suffix_map
    (str_lower (snd (mimetypes.expand_suffix 2 base ext))) = None.
Proof.
  cbn [Nat.add mimetypes.expand_suffix].
  destruct (dict_get mimetypes.suffix_map (str_lower ext)) as [r|] eqn:G.
  - apply dict_get_some_value in G. simpl in G.
    decompose [or] G; try contradiction; subst r;
      first [ known_suffix base "s"%char "vg" "gz"
            | known_suffix base "t"%char "ar" "gz"
            | known_suffix base "t"%char "ar" "bz2"
            | known_suffix base "t"%char "ar" "xz" ];
      split; reflexivity.
  - split; [reflexivity | assumption].
Qed.

(* ------------------------------------------------------------------ *)
(** ** When the MIME check can fail *)






(* ------------------------------------------------------------------ *)
(** ** More on the content check *)

Lemma startswith_length {A} (eqb : A -> A -> bool) (p s : list A) :
  Seq.startswith eqb p s = true -> (List.length p <= List.length s)%nat.
Proof.
  revert s; induction p as [|x p IH]; intros [|y s]; simpl;
    try discriminate; try lia.
  intros H. apply andb_true_iff in H as [_ H]. apply IH in H. lia.
Qed.

Lemma contains_length {A} (eqb : A -> A -> bool) (p s : list A) :
  Seq.contains eqb p s = true -> (List.length p <= List.length s)%nat.
Proof.
  induction s as [|y s IH]; cbn [Seq.contains]; intros H;
    apply orb_true_iff in H as [H | H].
  - now apply startswith_length in H.
  - discriminate.
  - now apply startswith_length in H.
  - apply IH in H. simpl. lia.
Qed.

(** X1: [_contains_suspicious_content] answers [True] exactly when one
    of the five markers occurs in the content as a contiguous run in
    some mix of upper and lower case ASCII letters. *)
Theorem suspicious_iff_marker_any_case (file_content : bytes) :
  _contains_suspicious_content file_content = true <->
  exists m l v r,
    In m suspicious_patterns /\
    file_content = l ++ v ++ r /\ bytes_lower v = m.
Proof.
  rewrite has_marker_iff. unfold has_marker, occurs_any_case. split.
  - intros (m & Hm & l & v & r & E & Hv). now exists m, l, v, r.
  - intros (m & l & v & r & Hm & E & Hv). exists m. split; [assumption|].
    now exists l, v, r.
Qed.

(** X2: content of fewer than 7 bytes, the length of the shortest
    marker, is never suspicious; the empty content in particular. *)
Theorem short_content_not_suspicious (file_content : bytes) :
  (List.length file_content < 7)%nat ->
  _contains_suspicious_content file_content = false.
Proof.
  intros H. unfold _contains_suspicious_content.
  apply not_true_is_false. intros E.
  apply existsb_exists in E as (m & Hm & C).
  apply contains_length in C. unfold bytes_lower in C.
  rewrite length_map in C.
  simpl in Hm. decompose [or] Hm; try contradiction; subst m;
    simpl in C; lia.
Qed.

Lemma short_content_not_suspicious_witness :
  _contains_suspicious_content (b "<scrip") = false.
Proof.
  apply (short_content_not_suspicious (b "<scrip")). simpl. lia.
Defined.

(** X3: padding does not hide a marker: content that is suspicious
    stays suspicious with any bytes put before and after it. *)
Theorem suspicious_content_stays_suspicious (l c r : bytes) :
  _contains_suspicious_content c = true ->
  _contains_suspicious_content (l ++ c ++ r) = true.
Proof.
  intros H. apply has_marker_iff in H. apply has_marker_iff.
  destruct H as (m & Hm & l' & v & r' & -> & Hv).
  exists m. split; [assumption|].
  exists (l ++ l'), v, (r' ++ r). split; [|assumption].
  now rewrite <- !app_assoc.
Qed.

Lemma suspicious_content_stays_suspicious_witness :
  _contains_suspicious_content (b "%PDF " ++ b "JavaScript:" ++ b " end")
  = true.
Proof.
  apply (suspicious_content_stays_suspicious (b "%PDF ") (b "JavaScript:")
           (b " end")).
  reflexivity.
Defined.

(* ------------------------------------------------------------------ *)
(** ** Acceptance *)

Lemma dict_has_keys (d : dict) (k : str) :
  dict_has d k = true <-> In k (dict_keys d).
Proof.
  unfold dict_has. split.
  - destruct (dict_get d k) as [v|] eqn:G; [|discriminate].
    intros _. now apply dict_get_some_key in G.
  - induction d as [|[k' v'] d IH]; simpl; [contradiction|].
    intros [-> | H].
    + unfold str_eqb. now rewrite (seq_eq_refl Ascii.eqb Ascii.eqb_spec).
    + destruct (str_eqb k' k); [reflexivity | now apply IH].
Qed.

Lemma accepted_iff (tm : str -> option str) (f : UploadedFile) :
  fst (validate_file tm f) = inl true <-> acceptable tm f.
Proof.
  rewrite validate_file_cascade. unfold acceptable.
  unfold too_large, name_too_long, extension_refused, mime_refused,
    content_refused, MAX_FILE_SIZE, MAX_FILENAME_LENGTH.
  change (dict_values ALLOWED_FILE_TYPES) with allowed_extensions.
  rewrite <- no_marker_iff.
  destruct (10 * 1024 * 1024 <? size f) eqn:E1.
  { apply Z.ltb_lt in E1. split; [discriminate | intros (? & _); lia]. }
  apply Z.ltb_ge in E1.
  destruct (255 <? Seq.len (name f)) eqn:E2.
  { apply Z.ltb_lt in E2. split; [discriminate | intros (_ & ? & _); lia]. }
  apply Z.ltb_ge in E2.
  destruct (str_in (file_extension (name f)) allowed_extensions) eqn:E3;
    cbn [negb].
  2:{ split; [discriminate|]. intros (_ & _ & H & _).
      apply str_in_true in H. congruence. }
  apply str_in_true in E3.
  destruct (opt_in_keys (detected_mime tm (name f)) ALLOWED_FILE_TYPES)
    eqn:E4; cbn [negb].
  2:{ split; [discriminate|]. intros (_ & _ & _ & (t & D & K) & _).
      rewrite D in E4. cbn [opt_in_keys] in E4.
      apply dict_has_keys in K. congruence. }
  assert (K : exists t, detected_mime tm (name f) = Some t /\
                        In t (dict_keys ALLOWED_FILE_TYPES)).
  { destruct (detected_mime tm (name f)) as [t|]; [|discriminate].
    exists t. split; [reflexivity | now apply dict_has_keys]. }
  destruct (_contains_suspicious_content (sample f)) eqn:E5.
  - split; [discriminate | intros (_ & _ & _ & _ & ?); discriminate].
  - split; [intros _; repeat split; assumption | reflexivity].
Qed.


Lemma returns_or_raises (tm : str -> option str) (f : UploadedFile) :
  validate_file tm f = (inl true, rewound f) \/
  exists r s, validate_file tm f = (inr (rejection tm f r), s).
Proof.
  rewrite validate_file_cascade.
  destruct (too_large f); [right; eauto|].
  destruct (name_too_long f); [right; eauto|].
  destruct (extension_refused f); [right; eauto|].
  destruct (mime_refused tm f); [right; eauto|].
  destruct (content_refused f); [right; eauto | now left].
Qed.

(** X4: [validate_file] returns [True] exactly for the files that are
    within the size and name-length limits, have an allowed extension
    and an allow-listed detected MIME type, and whose sampled bytes
    hold no marker; for every other file it raises the error of one
    of the five checks, and it never returns anything but [True]. *)
Theorem accepted_iff_acceptable (tm : str -> option str) (f : UploadedFile) :
  (acceptable tm f ->
   validate_file tm f = (inl true, rewound f)) /\
  (~ acceptable tm f ->
   exists r, fst (validate_file tm f) = inr (rejection tm f r)) /\
  (forall x, fst (validate_file tm f) = inl x ->
             x = true /\ acceptable tm f).
Proof.
  pose proof (accepted_iff tm f) as I.
  destruct (returns_or_raises tm f) as [V | (r & s & V)]; rewrite V in *;
    cbn [fst] in *.
  - split; [reflexivity|]. split.
    + intros N. elim N. now apply I.
    + intros x [= <-]. split; [reflexivity | now apply I].
  - split; [|split].
    + intros A. apply I in A. discriminate A.
    + intros _. now exists r.
    + intros x E. discriminate E.
Qed.

Lemma accepted_iff_acceptable_witness :
  validate_file tm0 (upload "a.txt" 11 (b "hello world") 0)
  = (inl true, rewound (upload "a.txt" 11 (b "hello world") 0)) /\
  exists r, fst (validate_file tm0 (upload "resume.exe" 5 (b "hello") 0))
            = inr (rejection tm0 (upload "resume.exe" 5 (b "hello") 0) r).
Proof.
  split.
  - apply (proj1 (accepted_iff_acceptable tm0
                    (upload "a.txt" 11 (b "hello world") 0))).
    repeat split.
    + vm_compute. discriminate.
    + vm_compute. discriminate.
    + vm_compute. auto 10.
    + exists ("text/plain" : str). split; [reflexivity|].
      vm_compute. auto 10.
    + apply no_marker_iff. reflexivity.
  - apply (proj1 (proj2 (accepted_iff_acceptable tm0
                           (upload "resume.exe" 5 (b "hello") 0)))).
    intros (_ & _ & H & _). vm_compute in H.
    decompose [or] H; try contradiction; discriminate.
Defined.

(* ------------------------------------------------------------------ *)
(** ** The sampled window *)

Lemma sample_ignores_tail (f : UploadedFile) (tail : bytes) :
  (position f + 2048 <= List.length (data f))%nat ->
  sample (with_data f (data f ++ tail)) = sample f.
Proof.
  intros H. unfold sample, with_data. cbn [position data].
  rewrite skipn_app, firstn_app, length_skipn.
  replace (2048 - (List.length (data f) - position f))%nat with 0%nat by lia.
  cbn [firstn]. now rewrite app_nil_r.
Qed.

(** X5: only the 2048 bytes that follow the stream position are
    looked at: once the data reaches 2048 bytes past the position,
    whatever is appended to it (a marker included) changes neither the
    verdict nor the message. *)
Theorem verdict_ignores_bytes_past_window
        (tm : str -> option str) (f : UploadedFile) (tail : bytes) :
  (position f + 2048 <= List.length (data f))%nat ->
  fst (validate_file tm (with_data f (data f ++ tail)))
  = fst (validate_file tm f).
Proof.
  intros H. rewrite !validate_file_cascade.
  unfold content_refused. rewrite (sample_ignores_tail f tail H).
  change (too_large (with_data f (data f ++ tail))) with (too_large f).
  change (name_too_long (with_data f (data f ++ tail)))
    with (name_too_long f).
  change (extension_refused (with_data f (data f ++ tail)))
    with (extension_refused f).
  change (mime_refused tm (with_data f (data f ++ tail)))
    with (mime_refused tm f).
  destruct (too_large f), (name_too_long f), (extension_refused f),
    (mime_refused tm f), (_contains_suspicious_content (sample f));
    reflexivity.
Qed.

Lemma verdict_ignores_bytes_past_window_witness :
  fst (validate_file tm0
         (with_data (upload "resume.pdf" 2055 (repeat x20 2048) 0)
                    (repeat x20 2048 ++ b "<script")))
  = fst (validate_file tm0 (upload "resume.pdf" 2055 (repeat x20 2048) 0)).
Proof.
  apply (verdict_ignores_bytes_past_window tm0
           (upload "resume.pdf" 2055 (repeat x20 2048) 0) (b "<script")).
  vm_compute. reflexivity.
Defined.

(* ------------------------------------------------------------------ *)
(** ** More on the extension check *)

Lemma lower_char_keeps (c x : ascii) :
  c = "."%char \/ c = "/"%char ->
  Ascii.eqb (lower_char x) c = Ascii.eqb x c.
Proof.
  intros [-> | ->]; destruct x as [[] [] [] [] [] [] [] []]; reflexivity.
Qed.

Lemma lower_char_idempotent (x : ascii) :
  lower_char (lower_char x) = lower_char x.
Proof. destruct x as [[] [] [] [] [] [] [] []]; reflexivity. Qed.

Lemma str_lower_idempotent (s : str) : str_lower (str_lower s) = str_lower s.
Proof.
  unfold str_lower. rewrite map_map. apply map_ext.
  intros x. apply lower_char_idempotent.
Qed.

Section MapPath.
Variable g : ascii -> ascii.
Hypothesis g_dot : forall x, Ascii.eqb (g x) "."%char = Ascii.eqb x "."%char.
Hypothesis g_sep : forall x, Ascii.eqb (g x) "/"%char = Ascii.eqb x "/"%char.

Lemma rfind_from_map (c : ascii) (s : str) (i : Z) :
  (forall x, Ascii.eqb (g x) c = Ascii.eqb x c) ->
  Seq.rfind_from Ascii.eqb c (map g s) i = Seq.rfind_from Ascii.eqb c s i.
Proof.
  intros H. revert i; induction s as [|x s IH]; intros i; simpl;
    [reflexivity|].
  now rewrite IH, H.
Qed.

Lemma slice_map (s : str) (i j : Z) :
  Seq.slice (map g s) i j = map g (Seq.slice s i j).
Proof.
  unfold Seq.slice, Seq.upto, Seq.from.
  now rewrite skipn_map, firstn_map.
Qed.

Lemma is_dot_map (l : str) :
  str_eqb (map g l) ["."%char] = str_eqb l ["."%char].
Proof.
  destruct l as [|x [|y l]]; simpl; try reflexivity.
  - now rewrite g_dot.
  - now rewrite !andb_false_r.
Qed.

Lemma skip_leading_dots_map (p : str) (n : nat) (i : Z) :
  posixpath.skip_leading_dots (map g p) "."%char i n
  = posixpath.skip_leading_dots p "."%char i n.
Proof.
  revert i; induction n as [|n IH]; intros i; simpl; [reflexivity|].
  now rewrite slice_map, is_dot_map, IH.
Qed.

Lemma splitext_map (p : str) :
  posixpath.splitext (map g p)
  = (map g (fst (posixpath.splitext p)), map g (snd (posixpath.splitext p))).
Proof.
  unfold posixpath.splitext, posixpath._splitext, Seq.rfind.
  rewrite !rfind_from_map by assumption.
  rewrite skip_leading_dots_map.
  destruct (_ && _); cbn [fst snd]; unfold Seq.upto, Seq.from.
  - now rewrite firstn_map, skipn_map.
  - reflexivity.
Qed.
End MapPath.

Lemma file_extension_lower (nm : str) :
  file_extension (str_lower nm) = file_extension nm.
Proof.
  unfold file_extension, str_lower at 2.
  rewrite (splitext_map lower_char); cbn [snd].
  - apply str_lower_idempotent.
  - intros x. apply lower_char_keeps. now left.
  - intros x. apply lower_char_keeps. now right.
Qed.

(** X6: the extension check does not look at letter case: two files
    whose names differ only in the case of their letters are both
    refused or both let through by it. *)
Theorem extension_check_ignores_case (f g : UploadedFile) :
  str_lower (name f) = str_lower (name g) ->
  extension_refused f = extension_refused g.
Proof.
  intros H. unfold extension_refused.
  now rewrite <- (file_extension_lower (name f)),
    <- (file_extension_lower (name g)), H.
Qed.

Lemma extension_check_ignores_case_witness :
  extension_refused (upload "Resume.PDF" 5 (b "hello") 0)
  = extension_refused (upload "resume.pdf" 5 (b "hello") 0).
Proof.
  apply (extension_check_ignores_case
           (upload "Resume.PDF" 5 (b "hello") 0)
           (upload "resume.pdf" 5 (b "hello") 0)).
  reflexivity.
Defined.

(** A name that ends in a character other than dot and slash, a dot,
    and a suffix without dot or slash is split before that dot. *)
Lemma splitext_after_char (pre : str) (x : ascii) (e : str) :
  x <> "."%char -> x <> "/"%char ->
  char_in "."%char e = false -> char_in "/"%char e = false ->
  posixpath.splitext (pre ++ x :: "."%char :: e)
  = (pre ++ [x], "."%char :: e).
Proof.
  intros Hx Hx' He He'.
  unfold posixpath.splitext, posixpath._splitext, Seq.rfind.
  assert (Hsl : char_in "/"%char (x :: "."%char :: e) = false).
  { unfold char_in in *. cbn [existsb]. rewrite He'.
    assert (N : Ascii.eqb "/" x = false) by (apply Ascii.eqb_neq; congruence).
    now rewrite N. }
  rewrite (rfind_from_app_absent "/"%char pre _ 0 Hsl).
  replace (pre ++ x :: "."%char :: e) with ((pre ++ [x]) ++ "."%char :: e)
    by (now rewrite <- app_assoc).
  rewrite (rfind_from_last "."%char _ e 0) by (assumption || lia).
  set (sepIndex := Seq.rfind_from Ascii.eqb "/"%char pre 0).
  assert (B1 : -1 <= sepIndex)
    by (destruct (rfind_from_range Ascii.eqb "/"%char pre 0);
        subst sepIndex; lia).
  assert (B2 : sepIndex < Seq.len pre)
    by (destruct (rfind_from_upper "/"%char pre 0); subst sepIndex;
        unfold Seq.len in *; lia).
  assert (L : Seq.len (pre ++ [x]) = Seq.len pre + 1)
    by (unfold Seq.len; rewrite length_app; cbn [List.length]; lia).
  rewrite (proj2 (Z.ltb_lt _ _)) by lia.
  rewrite (skip_leading_dots_true _ _ _ _ (Seq.len pre)).
  - cbn [andb]. unfold Seq.upto, Seq.from, Seq.len.
    rewrite Z.add_0_l, Nat2Z.id.
    rewrite firstn_app, firstn_all, Nat.sub_diag, skipn_app, skipn_all,
      Nat.sub_diag.
    cbn [firstn skipn]. now rewrite app_nil_r.
  - lia.
  - rewrite <- app_assoc. cbn [app]. rewrite slice_at. cbn.
    destruct (Ascii.eqb x ".") eqn:E; [|reflexivity].
    apply Ascii.eqb_eq in E. contradiction.
Qed.

(** X7: only the last suffix of a name is tested.  For a name made of
    any text, a character other than dot and slash, a dot and a suffix
    free of dots and slashes, the extension checked is that suffix in
    lower case, so the check passes exactly when it is one of the six
    allowed extensions, whatever suffixes come before (a name like
    [invoice.exe.pdf] passes it). *)
Theorem only_last_suffix_checked (f : UploadedFile) (pre : str) (x : ascii)
        (e : str) :
  name f = pre ++ x :: "."%char :: e ->
  x <> "."%char -> x <> "/"%char ->
  char_in "."%char e = false -> char_in "/"%char e = false ->
  file_extension (name f) = str_lower ("."%char :: e) /\
  extension_refused f
  = negb (str_in (str_lower ("."%char :: e)) allowed_extensions).
Proof.
  intros E Hx Hx' He He'.
  assert (X : file_extension (name f) = str_lower ("."%char :: e))
    by (unfold file_extension;
        now rewrite E, (splitext_after_char pre x e Hx Hx' He He')).
  split; [exact X|]. unfold extension_refused. now rewrite X.
Qed.

Lemma only_last_suffix_checked_witness :
  file_extension (name (upload "invoice.exe.pdf" 5 (b "hello") 0))
  = str_lower ("."%char :: "pdf") /\
  extension_refused (upload "invoice.exe.pdf" 5 (b "hello") 0)
  = negb (str_in (str_lower ("."%char :: "pdf")) allowed_extensions).
Proof.
  apply (only_last_suffix_checked (upload "invoice.exe.pdf" 5 (b "hello") 0)
           "invoice.ex" "e"%char "pdf");
    (reflexivity || intros [=]).
Defined.

(* ------------------------------------------------------------------ *)
(** ** Names without extension *)

Lemma skip_leading_dots_false (p : str) (c : ascii) (n : nat) (i : Z) :
  (forall j, i <= j < i + Z.of_nat n ->
             str_eqb (Seq.slice p j (j + 1)) [c] = true) ->
  posixpath.skip_leading_dots p c i n = false.
Proof.
  revert i; induction n as [|n IH]; intros i H; [reflexivity|].
  cbn [posixpath.skip_leading_dots].
  rewrite (H i) by lia. cbn [negb].
  apply IH. intros j Hj. apply H. lia.
Qed.

Lemma slice_in_run_nat (c : ascii) (m k : nat) (rest : str) :
  (m < k)%nat ->
  Seq.slice (repeat c k ++ rest) (Z.of_nat m) (Z.of_nat m + 1) = [c].
Proof.
  intros H.
  replace k with (m + S (k - m - 1))%nat by lia.
  rewrite repeat_app. cbn [repeat]. rewrite <- app_assoc. cbn [app].
  pose proof (slice_at (repeat c m) c (repeat c (k - m - 1) ++ rest)) as S.
  unfold Seq.len in S. rewrite repeat_length in S. exact S.
Qed.

Lemma slice_in_run (c : ascii) (k : nat) (rest : str) (j : Z) :
  0 <= j < Z.of_nat k ->
  Seq.slice (repeat c k ++ rest) j (j + 1) = [c].
Proof.
  intros Hj. rewrite <- (Z2Nat.id j) by lia.
  apply slice_in_run_nat. lia.
Qed.

Lemma char_in_repeat_other (c x : ascii) (k : nat) :
  Ascii.eqb c x = false -> char_in c (repeat x k) = false.
Proof.
  intros H. induction k as [|k IH]; [reflexivity|].
  unfold char_in in *. cbn [repeat existsb]. now rewrite H, IH.
Qed.

Lemma splitext_leading_dots (n : nat) (e : str) :
  char_in "."%char e = false -> char_in "/"%char e = false ->
  snd (posixpath.splitext (repeat "."%char n ++ e)) = [].
Proof.
  intros He He'.
  unfold posixpath.splitext, posixpath._splitext, Seq.rfind.
  assert (S0 : Seq.rfind_from Ascii.eqb "/"%char
                 (repeat "."%char n ++ e) 0 = -1).
  { apply rfind_from_absent. rewrite char_in_app, He'.
    now rewrite char_in_repeat_other. }
  rewrite S0.
  destruct n as [|k].
  - cbn [repeat app]. rewrite (rfind_from_absent "."%char e 0 He).
    reflexivity.
  - replace (repeat "."%char (S k) ++ e)
      with (repeat "."%char k ++ "."%char :: e)
      by (cbn [repeat]; rewrite repeat_cons, <- app_assoc; reflexivity).
    rewrite (rfind_from_last "."%char _ e 0) by (assumption || lia).
    rewrite skip_leading_dots_false; [now rewrite andb_false_r|].
    intros j Hj. unfold Seq.len in Hj. rewrite repeat_length in Hj.
    rewrite slice_in_run by lia. reflexivity.
Qed.

Lemma rfind_from_at_least (c : ascii) (pre post : str) (i : Z) :
  0 <= i ->
  i + Seq.len pre <= Seq.rfind_from Ascii.eqb c (pre ++ c :: post) i.
Proof.
  intros Hi.
  destruct (last_occurrence c post) as [N | (p1 & e & -> & He)].
  - rewrite rfind_from_last by assumption. lia.
  - replace (pre ++ c :: p1 ++ c :: e) with ((pre ++ c :: p1) ++ c :: e)
      by (now rewrite <- app_assoc).
    rewrite rfind_from_last by assumption.
    unfold Seq.len. rewrite length_app. lia.
Qed.

Lemma splitext_slash_after_dot (pre post : str) :
  char_in "."%char post = false ->
  snd (posixpath.splitext (pre ++ "/"%char :: post)) = [].
Proof.
  intros Hp.
  unfold posixpath.splitext, posixpath._splitext, Seq.rfind.
  assert (D : char_in "."%char ("/"%char :: post) = false)
    by (unfold char_in in *; cbn [existsb]; now rewrite Hp).
  rewrite (rfind_from_app_absent "."%char pre _ 0 D).
  pose proof (rfind_from_at_least "/"%char pre post 0 ltac:(lia)) as S.
  assert (L : 0 <= Seq.len pre) by (unfold Seq.len; lia).
  destruct (rfind_from_upper "."%char pre 0) as [U | U];
    rewrite (proj2 (Z.ltb_ge _ _)) by lia; reflexivity.
Qed.

Lemma no_extension_rejected (tm : str -> option str) (f : UploadedFile) :
  size f <= 10 * 1024 * 1024 ->
  Seq.len (name f) <= 255 ->
  snd (posixpath.splitext (name f)) = [] ->
  validate_file tm f =
  (inr (ValidationError_ ExtensionNotAllowed
          "File validation failed: ['File type not allowed. Allowed types: .pdf, .doc, .docx, .txt, .jpg, .png']"),
   f).
Proof.
  intros Hs Hn E. rewrite validate_file_cascade.
  assert (H1 : too_large f = false)
    by (unfold too_large, MAX_FILE_SIZE; apply Z.ltb_ge; lia).
  assert (H2 : name_too_long f = false)
    by (unfold name_too_long, MAX_FILENAME_LENGTH; apply Z.ltb_ge; lia).
  assert (H3 : extension_refused f = true)
    by (unfold extension_refused, file_extension; now rewrite E).
  now rewrite H1, H2, H3.
Qed.

(** X8: a name has no extension when no character other than a dot
    comes before its last dot, or when it has no dot at all: within
    the size and name-length limits, a file named by a run of dots
    (possibly none) followed by text without dot and slash, such as
    [.pdf], [..txt], [README] or the empty name, is rejected with the
    extension error. *)
Theorem dot_file_rejected (tm : str -> option str) (f : UploadedFile)
        (n : nat) (e : str) :
  size f <= 10 * 1024 * 1024 ->
  Seq.len (name f) <= 255 ->
  name f = repeat "."%char n ++ e ->
  char_in "."%char e = false -> char_in "/"%char e = false ->
  validate_file tm f =
  (inr (ValidationError_ ExtensionNotAllowed
          "File validation failed: ['File type not allowed. Allowed types: .pdf, .doc, .docx, .txt, .jpg, .png']"),
   f).
Proof.
  intros Hs Hn E He He'. apply no_extension_rejected; try assumption.
  rewrite E. now apply splitext_leading_dots.
Qed.

Lemma dot_file_rejected_witness :
  validate_file tm0 (upload ".pdf" 5 (b "hello") 0) =
  (inr (ValidationError_ ExtensionNotAllowed
          "File validation failed: ['File type not allowed. Allowed types: .pdf, .doc, .docx, .txt, .jpg, .png']"),
   upload ".pdf" 5 (b "hello") 0).
Proof.
  apply (dot_file_rejected tm0 (upload ".pdf" 5 (b "hello") 0) 1 "pdf");
    try reflexivity; vm_compute; discriminate.
Defined.

(** X9: only the last path component can carry the extension: within
    the size and name-length limits, a file whose name has a slash
    after its last dot, such as [resume.pdf/x], is rejected with the
    extension error. *)
Theorem slash_after_dot_rejected (tm : str -> option str) (f : UploadedFile)
        (pre post : str) :
  size f <= 10 * 1024 * 1024 ->
  Seq.len (name f) <= 255 ->
  name f = pre ++ "/"%char :: post ->
  char_in "."%char post = false ->
  validate_file tm f =
  (inr (ValidationError_ ExtensionNotAllowed
          "File validation failed: ['File type not allowed. Allowed types: .pdf, .doc, .docx, .txt, .jpg, .png']"),
   f).
Proof.
  intros Hs Hn E Hp. apply no_extension_rejected; try assumption.
  rewrite E. now apply splitext_slash_after_dot.
Qed.

Lemma slash_after_dot_rejected_witness :
  validate_file tm0 (upload "resume.pdf/x" 5 (b "hello") 0) =
  (inr (ValidationError_ ExtensionNotAllowed
          "File validation failed: ['File type not allowed. Allowed types: .pdf, .doc, .docx, .txt, .jpg, .png']"),
   upload "resume.pdf/x" 5 (b "hello") 0).
Proof.
  apply (slash_after_dot_rejected tm0 (upload "resume.pdf/x" 5 (b "hello") 0)
           "resume.pdf" "x");
    try reflexivity; vm_compute; discriminate.
Defined.

(* ------------------------------------------------------------------ *)
(** ** The reverse table of the MIME fallback *)

Lemma dict_set_fresh (d : dict) (k v : str) :
  dict_get d k = None -> dict_set d k v = d ++ [(k, v)].
Proof.
  induction d as [|[k' v'] d IH]; simpl; [reflexivity|].
  destruct (str_eqb k' k); [discriminate|].
  intros H. now rewrite IH.
Qed.

Lemma dict_get_app (d1 d2 : dict) (k : str) :
  dict_get (d1 ++ d2) k =
  match dict_get d1 k with
  | Some v => Some v
  | None => dict_get d2 k
  end.
Proof.
  induction d1 as [|[k' v'] d1 IH]; simpl; [reflexivity|].
  destruct (str_eqb k' k); [reflexivity | exact IH].
Qed.

Lemma invert_onto (d acc : dict) :
  NoDup (dict_values d) ->
  (forall v, In v (dict_values d) -> dict_get acc v = None) ->
  fold_left (fun a kv => dict_set a (snd kv) (fst kv)) d acc
  = acc ++ map swap d.
Proof.
  revert acc; induction d as [|[k v] d IH]; intros acc N F.
  - simpl. now rewrite app_nil_r.
  - cbn [fold_left fst snd map]. cbn [dict_values map snd] in N, F.
    apply NoDup_cons_iff in N as [Nv N].
    rewrite (dict_set_fresh acc v k) by (apply F; now left).
    rewrite IH; [now rewrite <- app_assoc | assumption |].
    intros v' Hv'. rewrite dict_get_app, (F v') by (now right).
    simpl. destruct (str_eqb v v') eqn:E; [|reflexivity].
    apply str_eqb_true in E. subst v'. contradiction.
Qed.

Lemma dict_get_in (d : dict) (k v : str) :
  NoDup (dict_keys d) ->
  dict_get d k = Some v <-> In (k, v) d.
Proof.
  induction d as [|[k' v'] d IH]; intros N.
  - simpl. split; [discriminate | contradiction].
  - cbn [dict_keys map fst] in N. apply NoDup_cons_iff in N as [Nk N].
    specialize (IH N). cbn [dict_get In].
    destruct (str_eqb k' k) eqn:E.
    + apply str_eqb_true in E. subst k'. split.
      * intros [= ->]. now left.
      * intros [[= ->] | H]; [reflexivity|].
        exfalso. apply Nk. change k with (fst (k, v)).
        now apply in_map.
    + rewrite IH. split; [now right|].
      intros [[= -> ->] | H]; [|assumption].
      unfold str_eqb in E.
      now rewrite (seq_eq_refl Ascii.eqb Ascii.eqb_spec) in E.
Qed.

(** X10: the reverse table [{v: k for k, v in d.items()}] is the exact
    inverse of a table whose values are pairwise distinct: it maps [v]
    to [k] exactly when the table maps [k] to [v].  The allow-list is
    such a table, so the fallback finds for each allowed extension the
    one MIME type listed with it. *)
Theorem reverse_table_inverts (d : dict) (k v : str) :
  NoDup (dict_keys d) -> NoDup (dict_values d) ->
  dict_get (invert d) v = Some k <-> dict_get d k = Some v.
Proof.
  intros Nk Nv. unfold invert, dict_items.
  rewrite invert_onto by (assumption || reflexivity). cbn [app].
  rewrite !dict_get_in; try assumption.
  - split.
    + intros H. apply in_map_iff in H as ([k' v'] & [= -> ->] & H).
      exact H.
    + intros H. now apply (in_map swap) in H.
  - unfold dict_keys. rewrite map_map. exact Nv.
Qed.

Lemma reverse_table_inverts_witness :
  dict_get (invert ALLOWED_FILE_TYPES) ".docx"
  = Some ("application/vnd.openxmlformats-officedocument.wordprocessingml.document" : str)
  <-> dict_get ALLOWED_FILE_TYPES
        "application/vnd.openxmlformats-officedocument.wordprocessingml.document"
      = Some (".docx" : str).
Proof.
  apply (reverse_table_inverts ALLOWED_FILE_TYPES);
    repeat constructor; simpl; intuition discriminate.
Defined.

(* ------------------------------------------------------------------ *)
(** ** Telling the rejections apart *)

Lemma mime_message_shape (tm : str -> option str) (f : UploadedFile) :
  exists q shown,
    (q = squote \/ q = dquote) /\
    message (rejection tm f MimeNotAllowed) =
    "File validation failed: [" ++ q
      :: "File type not allowed. Detected: " ++ shown.
Proof.
  unfold rejection, inner_message. cbn [message ValidationError_].
  rewrite repr_list_prefixed by reflexivity.
  set (m := format_opt (detected_mime tm (name f))).
  exists (repr_quote m), (repr_body m ++ repr_quote m :: "]").
  split; [apply repr_quote_cases|].
  rewrite (flat_map_repr_plain (repr_quote m)
             "File type not allowed. Detected: ")
    by (apply repr_quote_cases || reflexivity).
  change ("File validation failed: [" : str)
    with ("File validation failed: " ++ "[").
  rewrite <- !app_assoc. reflexivity.
Qed.

Lemma message_determines_reason (tm : str -> option str)
      (f g : UploadedFile) (r r' : Reason) :
  message (rejection tm f r) = message (rejection tm g r') -> r = r'.
Proof.
  destruct (mime_message_shape tm f) as (q & x & Hq & E).
  destruct (mime_message_shape tm g) as (q' & x' & Hq' & E').
  destruct r, r'; try reflexivity; intros H; exfalso;
    rewrite ?E, ?E' in H; clear E E';
    destruct Hq as [-> | ->]; destruct Hq' as [-> | ->];
    vm_compute in H; discriminate H.
Qed.

(** X11: the message alone tells which check failed: rejections for
    two different reasons never carry the same message, whatever the
    files and the MIME type detected. *)
Theorem message_tells_reason (tm : str -> option str) (f g : UploadedFile)
        (r r' : Reason) :
  r <> r' -> message (rejection tm f r) <> message (rejection tm g r').
Proof.
  intros N H. apply N. exact (message_determines_reason tm f g r r' H).
Qed.

Lemma message_tells_reason_witness :
  message (rejection tm0 (upload "data:text/html,x.pdf" 5 (b "") 0)
             MimeNotAllowed)
  <> message (rejection tm0 (upload "resume.exe" 5 (b "") 0)
                ExtensionNotAllowed).
Proof.
  apply (message_tells_reason tm0
           (upload "data:text/html,x.pdf" 5 (b "") 0)
           (upload "resume.exe" 5 (b "") 0)).
  discriminate.
Defined.

(* ------------------------------------------------------------------ *)
(** ** DocumentUploadView.post *)

Lemma validate_file_results (tm : str -> option str) (f : UploadedFile) :
  validate_file tm f = (inl true, rewound f) \/
  exists r s, validate_file tm f = (inr (rejection tm f r), s).
Proof. apply returns_or_raises. Qed.

(** X12: the serializer, and with it the saving of a document, is
    reached only for a file that [validate_file] accepted, and it
    finds that file with its stream at offset 0: a request without
    file or with a rejected file never gets to it. *)
Theorem serializer_sees_only_validated
        (tm : str -> option str) (ser : UploadedFile -> SerializerRun)
        (file : option UploadedFile) (g : UploadedFile) :
  In g (snd (post tm ser file)) ->
  exists f, file = Some f /\
            fst (validate_file tm f) = inl true /\
            g = rewound f /\ position g = 0%nat /\ data g = data f.
Proof.
  destruct file as [f|]; [|contradiction].
  unfold post.
  destruct (validate_file_results tm f) as [V | (r & s & V)]; rewrite V.
  - intros H. exists f.
    assert (E : g = rewound f).
    { destruct (ser (rewound f)) as [ | | [] ]; simpl in H;
        destruct H as [<- | []]; reflexivity. }
    subst g. repeat split; try reflexivity. now rewrite V.
  - contradiction.
Qed.

Lemma serializer_sees_only_validated_witness :
  exists f, Some (upload "a.txt" 11 (b "hello world") 4) = Some f /\
            fst (validate_file tm0 f) = inl true /\
            rewound (upload "a.txt" 11 (b "hello world") 4) = rewound f /\
            position (rewound (upload "a.txt" 11 (b "hello world") 4))
            = 0%nat /\
            data (rewound (upload "a.txt" 11 (b "hello world") 4)) = data f.
Proof.
  apply (serializer_sees_only_validated tm0 (fun _ => Stored "7")
           (Some (upload "a.txt" 11 (b "hello world") 4))).
  simpl. left. reflexivity.
Defined.

(** X13: for a file rejected for its size, name length, extension or
    content, [post] answers 400 with, as error text, the message of
    the rejection between double quotes and square brackets (the list
    form of an error whose message holds single quotes), and the
    serializer is not run. *)
Theorem rejected_upload_response
        (tm : str -> option str) (ser : UploadedFile -> SerializerRun)
        (f : UploadedFile) (e : ValidationError) :
  fst (validate_file tm f) = inr e ->
  reason e <> MimeNotAllowed ->
  post tm ser (Some f) =
  ({| body := ErrorBody ("[" ++ dquote :: message e ++ dquote :: "]");
      status := 400 |}, []).
Proof.
  intros V N. unfold post.
  destruct (validate_file_results tm f) as [A | (r & s & R)].
  - rewrite A in V. discriminate.
  - rewrite R in V |- *. cbn [fst] in V. injection V as <-.
    destruct r; try (now elim N); reflexivity.
Qed.

Lemma rejected_upload_response_witness :
  post tm0 (fun _ => Stored "7")
       (Some (upload "resume.pdf" 10485761 (b "hello") 0)) =
  ({| body :=
        ErrorBody
          ("[" ++ dquote
               :: "File validation failed: ['File size exceeds maximum limit of 10MB']"
               ++ dquote :: "]");
      status := 400 |}, []).
Proof.
  apply (rejected_upload_response tm0 (fun _ => Stored "7")
           (upload "resume.pdf" 10485761 (b "hello") 0)
           (rejection tm0 (upload "resume.pdf" 10485761 (b "hello") 0)
                      FileTooLarge)).
  - reflexivity.
  - discriminate.
Defined.

(* ------------------------------------------------------------------ *)
(** ** google_signups_list *)

(** X15: a user counts as new exactly when fewer than 24 hours lie
    between [date_joined] and now; a join date in the future counts as
    new too. *)
Theorem new_user_within_a_day (now date_joined : Z) :
  is_new_user now date_joined = true <->
  now - date_joined < 24 * 60 * 60 * 1000000.
Proof.
  unfold is_new_user, timedelta_days, microseconds_per_day.
  rewrite Z.ltb_lt. split; intros H.
  - apply Z.nle_gt. intros G.
    assert (1 <= (now - date_joined) / (86400 * 1000000))
      by (apply Z.div_le_lower_bound; lia).
    lia.
  - apply Z.div_lt_upper_bound; lia.
Qed.

Lemma lstrip_head (c : ascii) (s : str) :
  isspace c = false -> lstrip (c :: s) = c :: s.
Proof. intros H. simpl. now rewrite H. Qed.

Lemma rstrip_last (s : str) (c : ascii) :
  isspace c = false -> rstrip (s ++ [c]) = s ++ [c].
Proof.
  intros H. unfold rstrip. rewrite rev_app_distr. cbn [rev app].
  rewrite (lstrip_head c _ H). cbn [rev].
  now rewrite rev_involutive.
Qed.

Lemma rstrip_space (s : str) (c : ascii) :
  isspace c = true -> rstrip (s ++ [c]) = rstrip s.
Proof.
  intros H. unfold rstrip. rewrite rev_app_distr. cbn [rev app lstrip].
  now rewrite H.
Qed.

Lemma rstrip_spaceless (s : str) : spaceless s = true -> rstrip s = s.
Proof.
  intros H. destruct s as [|c s] using rev_ind; [reflexivity|].
  unfold spaceless in H. rewrite forallb_app in H.
  apply andb_true_iff in H as [_ H]. simpl in H.
  rewrite andb_true_r in H. apply negb_true_iff in H.
  now apply rstrip_last.
Qed.

Lemma rstrip_keeps_tail (a t : str) :
  t <> [] -> spaceless t = true -> rstrip (a ++ t) = a ++ t.
Proof.
  intros N H. destruct t as [|x t _] using rev_ind; [congruence|].
  unfold spaceless in H. rewrite forallb_app in H.
  apply andb_true_iff in H as [_ H]. simpl in H.
  rewrite andb_true_r in H. apply negb_true_iff in H.
  rewrite app_assoc. now apply rstrip_last.
Qed.

(** X16: the name shown for a Google sign-up is the profile name when
    there is one; otherwise it is made of the first and last name, and
    when these hold no whitespace it is [first last] if both are
    given, the one given if the other is empty, and empty if both are:
    no stray space is left. *)
Theorem google_name_cases (profile_name first_name last_name : str) :
  (profile_name <> [] ->
   google_name profile_name first_name last_name = profile_name) /\
  (profile_name = [] ->
   spaceless first_name = true -> spaceless last_name = true ->
   google_name profile_name first_name last_name =
   match first_name, last_name with
   | [], _ => last_name
   | _, [] => first_name
   | _, _ => first_name ++ " " ++ last_name
   end).
Proof.
  split.
  - destruct profile_name; [congruence | reflexivity].
  - intros -> Hf Hl. unfold google_name, strip.
    destruct first_name as [|c fn].
    + change (lstrip ([] ++ " " ++ last_name)) with (lstrip last_name).
      destruct last_name as [|d ln]; [reflexivity|].
      assert (D : isspace d = false)
        by (simpl in Hl; apply andb_true_iff in Hl as [Hl _];
            now apply negb_true_iff in Hl).
      rewrite (lstrip_head d ln D). now apply rstrip_spaceless.
    + assert (C : isspace c = false)
        by (simpl in Hf; apply andb_true_iff in Hf as [Hf _];
            now apply negb_true_iff in Hf).
      change (lstrip ((c :: fn) ++ " " ++ last_name))
        with (lstrip (c :: fn ++ " " ++ last_name)).
      rewrite (lstrip_head c _ C).
      change (c :: fn ++ " " ++ last_name)
        with ((c :: fn) ++ " " ++ last_name).
      destruct last_name as [|d ln].
      * change (" " ++ []) with [" "%char].
        rewrite rstrip_space by reflexivity.
        now apply rstrip_spaceless.
      * rewrite app_assoc.
        apply rstrip_keeps_tail; [discriminate | assumption].
Qed.

Lemma google_name_cases_witness :
  google_name "Ann B." "Ann" "" = ("Ann B." : str) /\
  google_name "" "Ann" "" = ("Ann" : str).
Proof.
  split.
  - apply (proj1 (google_name_cases "Ann B." "Ann" "")). discriminate.
  - apply (proj2 (google_name_cases "" "Ann" "")); reflexivity.
Defined.

(* ------------------------------------------------------------------ *)
(** ** update_user_goals *)

Lemma fold_left_append {A B} (h : A -> B) (l : list A) (acc : list B) :
  fold_left (fun a x => a ++ [h x]) l acc = acc ++ map h l.
Proof.
  revert acc; induction l as [|x l IH]; intros acc; simpl.
  - now rewrite app_nil_r.
  - now rewrite IH, <- app_assoc.
Qed.

Lemma enumerate_snd {A} (l : list A) (start : Z) :
  map snd (enumerate l start) = l.
Proof.
  revert start; induction l as [|x l IH]; intros start; simpl;
    [reflexivity | now rewrite IH].
Qed.

Lemma enumerate_fst {A} (l : list A) (start : Z) :
  map fst (enumerate l start)
  = map (fun i => start + Z.of_nat i) (seq 0 (List.length l)).
Proof.
  revert start; induction l as [|x l IH]; intros start; [reflexivity|].
  cbn [enumerate map List.length seq]. rewrite IH, <- seq_shift, map_map.
  rewrite Z.add_0_r. f_equal. apply map_ext. intros i. lia.
Qed.

(** X17: the goals built for [bulk_create] are the submitted goals in
    the order submitted, all for the requesting user, with priorities
    1, 2, ..., n: the goal at index [i] (from 0) gets priority [i + 1],
    so priorities are distinct and increase along the list. *)
Theorem new_goals_priorities {User Goal : Type} (u : User)
        (goals_data : list Goal) :
  map goal (new_goals u goals_data) = goals_data /\
  map priority (new_goals u goals_data)
  = map (fun i => Z.of_nat i + 1) (seq 0 (List.length goals_data)) /\
  Forall (fun g => user g = u) (new_goals u goals_data).
Proof.
  unfold new_goals.
  rewrite (fold_left_append
             (fun ig => {| user := u; goal := snd ig; priority := fst ig |})).
  cbn [app]. repeat split.
  - rewrite map_map. cbn [goal]. apply enumerate_snd.
  - rewrite map_map. cbn [priority].
    change (map (fun x : Z * Goal => fst x) (enumerate goals_data 1))
      with (map (@fst Z Goal) (enumerate goals_data 1)).
    rewrite (enumerate_fst goals_data 1). apply map_ext. intros i. lia.
  - apply Forall_forall. intros g H.
    apply in_map_iff in H as (ig & <- & _). reflexivity.
Qed.

(* ------------------------------------------------------------------ *)
(** ** Field updates from request data *)

Lemma getattr_setattr {V} (o : attrs V) (k k' : str) (v : V) :
  getattr (setattr o k v) k' = if str_eqb k k' then Some v else getattr o k'.
Proof.
  induction o as [|[k0 v0] o IH]; cbn [setattr getattr].
  - reflexivity.
  - destruct (str_eqb k0 k) eqn:E; cbn [getattr].
    + apply str_eqb_true in E. subst k0.
      destruct (str_eqb k k'); reflexivity.
    + destruct (str_eqb k0 k') eqn:E'; [|exact IH].
      apply str_eqb_true in E'. subst k0.
      destruct (str_eqb k k') eqn:E2; [|reflexivity].
      apply str_eqb_true in E2. subst k'. unfold str_eqb in E.
      now rewrite (seq_eq_refl Ascii.eqb Ascii.eqb_spec) in E.
Qed.

Lemma str_in_cons (k x : str) (l : list str) :
  str_in k (x :: l) = str_eqb k x || str_in k l.
Proof. reflexivity. Qed.

(** X18: the loops that copy request data onto a profile touch only
    the listed fields: after the loop an attribute holds the value the
    request gives for it when the attribute is in the list and the
    request has it, and its old value in every other case; a key of
    the request outside the list changes nothing. *)
Theorem update_fields_whitelist {V : Type} (update_fields : list str)
        (data obj : attrs V) (k : str) :
  getattr (apply_update_fields update_fields data obj) k =
  match (if str_in k update_fields then getattr data k else None) with
  | Some v => Some v
  | None => getattr obj k
  end.
Proof.
  unfold apply_update_fields.
  revert obj; induction update_fields as [|fd rest IH]; intros obj.
  - reflexivity.
  - cbn [fold_left]. rewrite IH, str_in_cons.
    destruct (str_in k rest) eqn:R.
    + rewrite orb_true_r.
      destruct (getattr data k) as [v|] eqn:D; [reflexivity|].
      destruct (getattr data fd) as [w|] eqn:F; [|reflexivity].
      rewrite getattr_setattr.
      destruct (str_eqb fd k) eqn:E; [|reflexivity].
      apply str_eqb_true in E. subst fd. congruence.
    + rewrite orb_false_r.
      destruct (str_eqb k fd) eqn:E.
      * apply str_eqb_true in E. subst fd.
        destruct (getattr data k) as [v|] eqn:D; [|reflexivity].
        rewrite getattr_setattr. unfold str_eqb.
        now rewrite (seq_eq_refl Ascii.eqb Ascii.eqb_spec).
      * destruct (getattr data fd) as [w|] eqn:F; [|reflexivity].
        rewrite getattr_setattr.
        destruct (str_eqb fd k) eqn:E'; [|reflexivity].
        apply str_eqb_true in E'. subst fd. unfold str_eqb in E.
        now rewrite (seq_eq_refl Ascii.eqb Ascii.eqb_spec) in E.
Qed.

(* ------------------------------------------------------------------ *)
(** ** Streams that fail *)

(** [validate_file] over a stream that can fail, as a cascade: the
    first three checks come before any use of the stream; an error of
    [read] leaves the file object alone, an error of [seek] leaves
    the stream where the read took it. *)
Lemma validate_file_io_cascade (tm : str -> option str) (o : FileObject) :
  validate_file_io tm o =
  let f := upload_of o in
  let check r :=
    Validation (Some r) (message (rejection tm f r)) in
  if too_large f then (inr (check FileTooLarge), o)
  else if name_too_long f then (inr (check FilenameTooLong), o)
  else if extension_refused f then (inr (check ExtensionNotAllowed), o)
  else
    match read_error o with
    | Some text =>
        (inr (Validation None ("File validation failed: " ++ text)), o)
    | None =>
        match seek_error o with
        | Some text =>
            (inr (Validation None ("File validation failed: " ++ text)),
             set_upload o (snd (read 2048 f)))
        | None =>
            if mime_refused tm f
            then (inr (check MimeNotAllowed), set_upload o (rewound f))
            else if content_refused f
            then (inr (check SuspiciousContent), set_upload o (rewound f))
            else (inl true, set_upload o (rewound f))
        end
    end.
Proof.
  unfold validate_file_io, validate_file_io_body, try_except_io.
  unfold too_large, name_too_long, extension_refused, mime_refused,
    content_refused, detected_mime, file_extension.
  cbv zeta.
  destruct (MAX_FILE_SIZE <? size (upload_of o)); [reflexivity|].
  destruct (MAX_FILENAME_LENGTH <? Seq.len (name (upload_of o)));
    [reflexivity|].
  destruct (negb (str_in _ _)); [reflexivity|].
  unfold bind_io at 1 2 3; cbn [when_io ret_io].
  unfold bind_io at 1. unfold read_io.
  destruct (read_error o) as [text|] eqn:R; [reflexivity|].
  unfold bind_io at 1. unfold seek_io. cbn [set_upload seek_error].
  destruct (seek_error o) as [text|] eqn:S; [reflexivity|].
  cbn [upload_of read_error seek_error].
  change (snd (seek 0 (snd (read 2048 (upload_of o)))))
    with (rewound (upload_of o)).
  change {| upload_of := rewound (upload_of o); read_error := read_error o;
            seek_error := seek_error o |}
    with (set_upload o (rewound (upload_of o))).
  fold (sample (upload_of o)).
  destruct (negb (opt_in_keys _ _)); [reflexivity|].
  unfold bind_io at 1; cbn [when_io ret_io].
  destruct (_contains_suspicious_content (sample (upload_of o)));
    reflexivity.
Qed.

(** On a stream that works, the two models of [validate_file] agree. *)
Lemma validate_file_io_working (tm : str -> option str) (f : UploadedFile) :
  validate_file_io tm (working f) =
  match validate_file tm f with
  | (inl r, g) => (inl r, working g)
  | (inr e, g) => (inr (Validation (Some (reason e)) (message e)), working g)
  end.
Proof.
  rewrite validate_file_io_cascade, validate_file_cascade.
  cbn [working upload_of read_error seek_error].
  destruct (too_large f); [reflexivity|].
  destruct (name_too_long f); [reflexivity|].
  destruct (extension_refused f); [reflexivity|].
  destruct (mime_refused tm f); [reflexivity|].
  destruct (content_refused f); reflexivity.
Qed.


(* ------------------------------------------------------------------ *)
(** ** The status codes of [post] *)

Lemma validate_file_io_results (tm : str -> option str) (o : FileObject) :
  (exists o', validate_file_io tm o = (inl true, o')) \/
  (exists origin m o',
      validate_file_io tm o = (inr (Validation origin m), o')).
Proof.
  rewrite validate_file_io_cascade. cbv zeta.
  destruct (too_large (upload_of o)); [right; eauto|].
  destruct (name_too_long (upload_of o)); [right; eauto|].
  destruct (extension_refused (upload_of o)); [right; eauto|].
  destruct (read_error o); [right; eauto|].
  destruct (seek_error o); [right; eauto|].
  destruct (mime_refused tm (upload_of o)); [right; eauto|].
  destruct (content_refused (upload_of o)); [right; eauto | left; eauto].
Qed.

(** Once [request.FILES] has been obtained and for a stream that
    works, [post_request] answers as [post] does. *)
Lemma post_request_working (tm : str -> option str)
      (ser : FileObject -> SerializerRun) (file : option UploadedFile) :
  fst (post_request tm ser (inr (option_map working file)))
  = fst (post tm (fun f => ser (working f)) file).
Proof.
  destruct file as [f|]; [|reflexivity].
  cbn [option_map]. unfold post_request, post.
  rewrite validate_file_io_working.
  destruct (validate_file tm f) as [[r | e] g]; [|reflexivity].
  destruct (ser (working g)) as [ | | [] ]; reflexivity.
Qed.

(** X14: [post] answers 200 exactly when [request.FILES] could be
    read, held a file, [validate_file] accepted it and the serializer
    stored the document.  It answers 500 exactly when reading
    [request.FILES] raised something other than a Django
    [ValidationError], or a validated file made the serializer raise
    such an exception.  Every other request gets 400: a missing file,
    a rejected file, a stream that fails under [validate_file], a
    serializer that refuses the data. *)
Theorem post_status_codes
        (tm : str -> option str) (ser : FileObject -> SerializerRun)
        (FILES : Exception + option FileObject) :
  (status (fst (post_request tm ser FILES)) = 200 <->
   exists o id,
     FILES = inr (Some o) /\ fst (validate_file_io tm o) = inl true /\
     ser (snd (validate_file_io tm o)) = Stored id) /\
  (status (fst (post_request tm ser FILES)) = 500 <->
   (exists text, FILES = inl (Other text)) \/
   (exists o text,
       FILES = inr (Some o) /\ fst (validate_file_io tm o) = inl true /\
       ser (snd (validate_file_io tm o)) = Raised false text)) /\
  (status (fst (post_request tm ser FILES)) = 200 \/
   status (fst (post_request tm ser FILES)) = 400 \/
   status (fst (post_request tm ser FILES)) = 500).
Proof.
  unfold post_request, HTTP_200_OK, HTTP_400_BAD_REQUEST,
    HTTP_500_INTERNAL_SERVER_ERROR.
  destruct FILES as [[origin m | text] | [o |]].
  - cbn [fst status]. split; [|split].
    + split; [intros E; discriminate E|].
      intros (o & x & E & _). discriminate E.
    + split; [intros E; discriminate E|].
      intros [(t & E) | (o & x & E & _)]; discriminate E.
    + right; left; reflexivity.
  - cbn [fst status]. split; [|split].
    + split; [intros E; discriminate E|].
      intros (o & x & E & _). discriminate E.
    + split; [intros _; left; now exists text | reflexivity].
    + right; right; reflexivity.
  - destruct (validate_file_io_results tm o)
      as [(o' & V) | (origin & m & o' & V)]; rewrite V.
    + assert (A : fst (validate_file_io tm o) = inl true) by now rewrite V.
      assert (B : snd (validate_file_io tm o) = o') by now rewrite V.
      destruct (ser o') as [errs | id | [] text] eqn:S;
        cbn [fst status]; (split; [|split]).
      * split; [intros E; discriminate E|].
        intros (o2 & x & [= <-] & _ & S'). rewrite B, S in S'.
        discriminate S'.
      * split; [intros E; discriminate E|].
        intros [(t & E) | (o2 & x & [= <-] & _ & S')];
          [discriminate E | rewrite B, S in S'; discriminate S'].
      * right; left; reflexivity.
      * split; [|reflexivity]. intros _. exists o, id.
        now rewrite B.
      * split; [intros E; discriminate E|].
        intros [(t & E) | (o2 & x & [= <-] & _ & S')];
          [discriminate E | rewrite B, S in S'; discriminate S'].
      * left; reflexivity.
      * split; [intros E; discriminate E|].
        intros (o2 & x & [= <-] & _ & S'). rewrite B, S in S'.
        discriminate S'.
      * split; [intros E; discriminate E|].
        intros [(t & E) | (o2 & x & [= <-] & _ & S')];
          [discriminate E | rewrite B, S in S'; discriminate S'].
      * right; left; reflexivity.
      * split; [intros E; discriminate E|].
        intros (o2 & x & [= <-] & _ & S'). rewrite B, S in S'.
        discriminate S'.
      * split; [|reflexivity]. intros _. right. exists o, text.
        now rewrite B.
      * right; right; reflexivity.
    + cbn [fst status]. split; [|split].
      * split; [intros E; discriminate E|].
        intros (o2 & x & [= <-] & A & _). rewrite V in A. discriminate A.
      * split; [intros E; discriminate E|].
        intros [(t & E) | (o2 & x & [= <-] & A & _)];
          [discriminate E | rewrite V in A; discriminate A].
      * right; left; reflexivity.
  - cbn [fst status]. split; [|split].
    + split; [intros E; discriminate E|].
      intros (o & x & E & _). discriminate E.
    + split; [intros E; discriminate E|].
      intros [(t & E) | (o & x & E & _)]; discriminate E.
    + right; left; reflexivity.
Qed.
